(** * Extremis: the DMG background generator

    A verification development for [scripts/create-dmg-background.py].

    The script builds an SVG document from a width and a height, writes it
    next to the requested output, asks the Quick Look thumbnailer
    ([qlmanage]) to rasterise it, and either moves the thumbnail to the
    requested path or keeps the SVG.

    Layout of the development:
    - [PyStr]: the Python string operations the script calls
      ([str.replace], [str(int)], [os.path.dirname], ...);
    - [Scan]: occurrence counting and a tiny tag/attribute reader, used to
      state facts about the generated document;
    - [Xml]: a reader that makes a tree of a well-formed document;
    - [Os]: files, directories, exceptions and the calls of [os],
      [subprocess] and [open] that the script performs;
    - the script itself ([svg_content], [svg_path], [create_background]),
      some machines to run it on, and an outline of the document;
    - facts about the strings, the reader and the system calls;
    - the properties of the document (C5, C6, C7), of the paths (C8, C10)
      and of what a call leaves behind (C1, C2, C3, C4, C9);
    - further properties of a call, the paths, the document and the entry
      point (X1 to X12). *)

From Stdlib Require Import ZArith String Ascii List DecimalString DecimalZ
  DecimalPos Lia.
From stdpp Require Import gmap strings.

Local Open Scope string_scope.

(* ===================================================================== *)
(** * Python strings *)
(* ===================================================================== *)

Module PyStr.

(** [s[n:]] *)
Fixpoint slice_from (n : nat) (s : string) : string :=
  match n, s with
  | O, _ => s
  | S _, "" => ""
  | S k, String _ s' => slice_from k s'
  end.

(** [s.startswith(pat)] *)
Fixpoint startswith (pat s : string) : bool :=
  match pat, s with
  | "", _ => true
  | String _ _, "" => false
  | String a pat', String b s' => Ascii.eqb a b && startswith pat' s'
  end.

(** [s.endswith(suf)]: some suffix of [s] is [suf]. *)
Fixpoint endswith (suf s : string) : bool :=
  String.eqb s suf ||
  match s with
  | "" => false
  | String _ s' => endswith suf s'
  end.

(** The scanning loop of [str.replace] for a non-empty [old]: walk [s] from
    the left; at a position where [old] starts, emit [new] and skip the
    rest of that occurrence ([skip] characters still to be passed over);
    elsewhere copy the character. *)
Fixpoint replace_scan (old new : string) (skip : nat) (s : string) : string :=
  match s with
  | "" => ""
  | String c s' =>
      match skip with
      | S k => replace_scan old new k s'
      | O =>
          if startswith old s
          then new +:+ replace_scan old new (Nat.pred (String.length old)) s'
          else String c (replace_scan old new 0 s')
      end
  end.

(** With an empty [old], Python puts [new] before every character and at
    the end. *)
Fixpoint interleave (new s : string) : string :=
  match s with
  | "" => new
  | String c s' => new +:+ String c (interleave new s')
  end.

(** [s.replace(old, new)] *)
Definition replace (old new s : string) : string :=
  match old with
  | "" => interleave new s
  | String _ _ => replace_scan old new 0 s
  end.

(** [str(n)] for an [int]. *)
Definition str (n : Z) : string := NilZero.string_of_int (Z.to_int n).

(** CPython prints an [int] of up to 4300 digits
    ([sys.int_info.default_max_str_digits]); for a longer one [str] and the
    f-string raise [ValueError], unless the limit has been lifted.  [str]
    above is [str] within the limit. *)
Definition max_str_digits : nat := 4300.

Definition prints (n : Z) : bool :=
  (String.length (str (Z.abs n)) <=? max_str_digits)%nat.

(** [posixpath.dirname]:
<<
    i = p.rfind('/') + 1
    head = p[:i]
    if head and head != '/'*len(head):
        head = head.rstrip('/')
    return head
>> *)
Definition sep : ascii := "/"%char.

Fixpoint has_sep (s : string) : bool :=
  match s with
  | "" => false
  | String c s' => Ascii.eqb c sep || has_sep s'
  end.

(** [p[:p.rfind('/') + 1]] *)
Fixpoint head_of (p : string) : string :=
  match p with
  | "" => ""
  | String c p' => if has_sep p then String c (head_of p') else ""
  end.

(** [s == '/' * len(s)] *)
Fixpoint all_sep (s : string) : bool :=
  match s with
  | "" => true
  | String c s' => Ascii.eqb c sep && all_sep s'
  end.

(** [s.rstrip('/')] *)
Fixpoint rstrip_sep (s : string) : string :=
  match s with
  | "" => ""
  | String c s' =>
      match rstrip_sep s' with
      | "" => if Ascii.eqb c sep then "" else String c ""
      | r => String c r
      end
  end.

Definition dirname (p : string) : string :=
  let head := head_of p in
  if negb (String.eqb head "") && negb (all_sep head)
  then rstrip_sep head
  else head.

End PyStr.

Import PyStr.

(* ===================================================================== *)
(** * Reading the generated text *)
(* ===================================================================== *)

(** The document is produced as text.  To speak about its elements we count
    the places where a piece of text occurs and read start tags and
    attribute values off the text. *)

Module Scan.

(** The double quote and the line feed. *)
Definition dq : string := String (ascii_of_nat 34) "".
Definition nl : string := String (ascii_of_nat 10) "".

(** [q s] is [s] between double quotes. *)
Definition q (s : string) : string := dq +:+ s +:+ dq.

(** Does the character [c] occur in [s]? *)
Fixpoint occurs (c : ascii) (s : string) : bool :=
  match s with
  | "" => false
  | String b s' => Ascii.eqb c b || occurs c s'
  end.

(** No character of [v] occurs in [pat]. *)
Fixpoint apart (pat v : string) : bool :=
  match v with
  | "" => true
  | String c v' => negb (occurs c pat) && apart pat v'
  end.

(** Every character of [v] is one of [chars]. *)
Fixpoint made_of (chars v : string) : bool :=
  match v with
  | "" => true
  | String c v' => occurs c chars && made_of chars v'
  end.

(** The characters [str] can produce, and those it produces for a number
    that is not negative. *)
Definition numeric_chars : string := "-0123456789".
Definition digit_chars : string := "0123456789".

(** The number of positions of [s] at which [pat] starts. *)
Fixpoint occurrences (pat s : string) : nat :=
  (if startswith pat s then 1 else 0) +
  match s with
  | "" => 0
  | String _ s' => occurrences pat s'
  end.

Definition contains (pat s : string) : bool := negb (Nat.eqb (occurrences pat s) 0).

(** The suffix of [s] that begins at the first occurrence of [pat]. *)
Fixpoint find_from (pat s : string) : option string :=
  if startswith pat s then Some s
  else match s with
       | "" => None
       | String _ s' => find_from pat s'
       end.

(** The text before the first occurrence of [stop] (which has to occur). *)
Fixpoint take_until (stop s : string) : option string :=
  if startswith stop s then Some ""
  else match s with
       | "" => None
       | String c s' => option_map (String c) (take_until stop s')
       end.

(** The text after the first occurrence of [pat]. *)
Definition after (pat s : string) : option string :=
  option_map (slice_from (String.length pat)) (find_from pat s).

(** How a tag that carries attributes opens: [<name] and a blank. *)
Definition opening (name : string) : string := "<" +:+ name +:+ " ".

(** The attributes of the first start tag [<name ...>] of the document:
    the text from the blank after the tag name up to the closing [>]. *)
Definition start_tag (name doc : string) : option string :=
  match find_from (opening name) doc with
  | Some tag => take_until ">" (slice_from (S (String.length name)) tag)
  | None => None
  end.

(** The value of the attribute [name] in the text of a start tag. *)
Definition attribute (name tag : string) : option string :=
  match after (" " +:+ name +:+ "=" +:+ dq) tag with
  | Some rest => take_until dq rest
  | None => None
  end.

(** The text between the first start tag [<name ...>] and the end tag
    [</name>] that follows it. *)
Definition element_text (name doc : string) : option string :=
  match after (opening name) doc with
  | Some rest =>
      match after ">" rest with
      | Some body => take_until ("</" +:+ name +:+ ">") body
      | None => None
      end
  | None => None
  end.

(** The value of the attribute [key] of the first [<name ...>] tag. *)
Definition tag_attribute (name key doc : string) : option string :=
  match start_tag name doc with
  | Some tag => attribute key tag
  | None => None
  end.

(** A text written as fixed stretches and printed numbers, the way an
    f-string is.  [segments] lists the fixed stretches between the
    numbers. *)
Inductive piece : Type :=
  | Lit (s : string)
  | Num (z : Z).

Fixpoint render (t : list piece) : string :=
  match t with
  | [] => ""
  | Lit s :: t' => s +:+ render t'
  | Num z :: t' => str z +:+ render t'
  end.

Fixpoint segments (acc : string) (t : list piece) : list string :=
  match t with
  | [] => [acc]
  | Lit s :: t' => segments (acc +:+ s) t'
  | Num _ :: t' => acc :: segments "" t'
  end.

End Scan.

Import Scan.

(* ===================================================================== *)
(** * Reading the document as XML *)
(* ===================================================================== *)

(** A reader for the part of XML the document is written in: an optional
    declaration, one root element, start tags with double-quoted
    attributes, end tags, empty-element tags, comments and character data
    in printable ASCII, without references.  It goes through the text
    character by character and gives no tree for a text that is not well
    formed: a tag that is not closed or closed by another name, a second
    root, text outside the root, an attribute given twice, a [<] or an [&]
    out of place. *)

Module Xml.

#[warnings="-register-all"]
Inductive tree : Type :=
  | Element (name : string) (attrs : list (string * string)) (children : list tree)
  | Text (text : string).

(** An element that is open: its name, its attributes, and its children
    so far, the last one first. *)
Record frame : Type := Frame {
  frame_name : string;
  frame_attrs : list (string * string);
  frame_kids : list tree
}.

(** Where the reader is. *)
Inductive mode : Type :=
  | Start
  | Chars (text : string)
  | Lt (first : bool)
  | Decl (todo : string)
  | Bang
  | BangDash
  | Comment (dashes : nat)
  | StartName (name : string)
  | Attrs (name : string) (attrs : list (string * string)) (spaced : bool)
  | Key (name : string) (attrs : list (string * string)) (key : string)
  | Quote (name : string) (attrs : list (string * string)) (key : string)
  | Value (name : string) (attrs : list (string * string)) (key value : string)
  | Slash (name : string) (attrs : list (string * string))
  | EndName (name : string)
  | EndSpace (name : string).

Record state : Type := State {
  st_mode : mode;
  st_open : list frame;
  st_root : option tree
}.

Definition space_chars : string :=
  String " " (String (ascii_of_nat 9) (String (ascii_of_nat 10) (String (ascii_of_nat 13) ""))).

Definition is_space (c : ascii) : bool := occurs c space_chars.

Definition between (lo hi : nat) (c : ascii) : bool :=
  (lo <=? nat_of_ascii c)%nat && (nat_of_ascii c <=? hi)%nat.

Definition is_letter (c : ascii) : bool := between 65 90 c || between 97 122 c.

Definition name_start (c : ascii) : bool := is_letter c || occurs c "_:".

Definition name_char (c : ascii) : bool :=
  name_start c || between 48 57 c || occurs c "-.".

Definition printable (c : ascii) : bool := between 32 126 c || is_space c.

Definition text_char (c : ascii) : bool := printable c && negb (occurs c "<>&").

Definition value_char (c : ascii) : bool :=
  printable c && negb (occurs c "<&") && negb (occurs c dq).

Definition blank (s : string) : bool := made_of space_chars s.

Definition snoc (s : string) (c : ascii) : string := s +:+ String c "".

(** The declaration, after its [<?]. *)
Definition declaration : string :=
  "xml version=" +:+ q "1.0" +:+ " encoding=" +:+ q "UTF-8" +:+ "?>".

(** A finished tree goes to the element that is open, or becomes the
    root. *)
Definition add_child (t : tree) (open : list frame) (root : option tree)
    : option (list frame * option tree) :=
  match open with
  | Frame name attrs kids :: rest => Some (Frame name attrs (t :: kids) :: rest, root)
  | [] =>
      match t, root with
      | Element _ _ _, None => Some ([], Some t)
      | _, _ => None
      end
  end.

(** Character data ends: white space between tags is dropped. *)
Definition flush (text : string) (open : list frame) (root : option tree)
    : option (list frame * option tree) :=
  if blank text then Some (open, root) else add_child (Text text) open root.

Definition in_content (r : option (list frame * option tree)) : option state :=
  match r with
  | Some (open, root) => Some (State (Chars "") open root)
  | None => None
  end.

(** A start tag ends: its element is open now. *)
Definition push (name : string) (attrs : list (string * string))
    (open : list frame) (root : option tree) : option state :=
  match open, root with
  | [], Some _ => None
  | _, _ => Some (State (Chars "") (Frame name attrs [] :: open) root)
  end.

(** An end tag ends: it closes the element opened last. *)
Definition close (name : string) (open : list frame) (root : option tree)
    : option state :=
  match open with
  | Frame name' attrs kids :: rest =>
      if String.eqb name name'
      then in_content (add_child (Element name attrs (rev kids)) rest root)
      else None
  | [] => None
  end.

Definition has_key (key : string) (attrs : list (string * string)) : bool :=
  existsb (fun kv => String.eqb key kv.1) attrs.

Definition step (st : state) (c : ascii) : option state :=
  let '(State m open root) := st in
  let go m' := Some (State m' open root) in
  let chars text :=
    if Ascii.eqb c "<" then
      match flush text open root with
      | Some (open', root') => Some (State (Lt false) open' root')
      | None => None
      end
    else if text_char c then go (Chars (snoc text c))
    else None in
  match m with
  | Start => if Ascii.eqb c "<" then go (Lt true) else chars ""
  | Chars text => chars text
  | Lt first =>
      if Ascii.eqb c "!" then go Bang
      else if Ascii.eqb c "/" then go (EndName "")
      else if Ascii.eqb c "?" then (if first then go (Decl declaration) else None)
      else if name_start c then go (StartName (String c ""))
      else None
  | Decl todo =>
      match todo with
      | String d todo' =>
          if Ascii.eqb c d
          then (if String.eqb todo' "" then go (Chars "") else go (Decl todo'))
          else None
      | "" => None
      end
  | Bang => if Ascii.eqb c "-" then go BangDash else None
  | BangDash => if Ascii.eqb c "-" then go (Comment 0) else None
  | Comment dashes =>
      if Ascii.eqb c "-" then (if (dashes <? 2)%nat then go (Comment (S dashes)) else None)
      else if (dashes =? 2)%nat then (if Ascii.eqb c ">" then go (Chars "") else None)
      else if printable c then go (Comment 0)
      else None
  | StartName name =>
      if name_char c then go (StartName (snoc name c))
      else if is_space c then go (Attrs name [] true)
      else if Ascii.eqb c ">" then push name [] open root
      else if Ascii.eqb c "/" then go (Slash name [])
      else None
  | Attrs name attrs spaced =>
      if is_space c then go (Attrs name attrs true)
      else if Ascii.eqb c ">" then push name attrs open root
      else if Ascii.eqb c "/" then go (Slash name attrs)
      else if spaced && name_start c then go (Key name attrs (String c ""))
      else None
  | Key name attrs key =>
      if name_char c then go (Key name attrs (snoc key c))
      else if Ascii.eqb c "=" then go (Quote name attrs key)
      else None
  | Quote name attrs key =>
      if occurs c dq then go (Value name attrs key "") else None
  | Value name attrs key value =>
      if occurs c dq
      then (if has_key key attrs then None
            else go (Attrs name (attrs ++ [(key, value)]) false))
      else if value_char c then go (Value name attrs key (snoc value c))
      else None
  | Slash name attrs =>
      if Ascii.eqb c ">" then in_content (add_child (Element name attrs []) open root)
      else None
  | EndName name =>
      if (if String.eqb name "" then name_start c else name_char c)
      then go (EndName (snoc name c))
      else if String.eqb name "" then None
      else if is_space c then go (EndSpace name)
      else if Ascii.eqb c ">" then close name open root
      else None
  | EndSpace name =>
      if is_space c then go (EndSpace name)
      else if Ascii.eqb c ">" then close name open root
      else None
  end.

Fixpoint run (s : string) (st : state) : option state :=
  match s with
  | "" => Some st
  | String c s' =>
      match step st c with
      | Some st' => run s' st'
      | None => None
      end
  end.

(** The text is at its end: the root has to be closed, and nothing but
    white space may follow it. *)
Definition finish (st : state) : option tree :=
  match st with
  | State (Chars text) [] (Some root) => if blank text then Some root else None
  | _ => None
  end.

Definition parse (doc : string) : option tree :=
  match run doc (State Start [] None) with
  | Some st => finish st
  | None => None
  end.

(** A text with numbers in it, the numbers printed by [hole], and the run
    of the reader over it: a number has its place in an attribute value. *)
Fixpoint render_with (hole : Z -> string) (t : list piece) : string :=
  match t with
  | [] => ""
  | Lit s :: t' => s +:+ render_with hole t'
  | Num z :: t' => hole z +:+ render_with hole t'
  end.

Fixpoint run_pieces (hole : Z -> string) (t : list piece) (st : state) : option state :=
  match t with
  | [] => Some st
  | Lit s :: t' =>
      match run s st with
      | Some st' => run_pieces hole t' st'
      | None => None
      end
  | Num z :: t' =>
      match st with
      | State (Value name attrs key value) open root =>
          run_pieces hole t' (State (Value name attrs key (value +:+ hole z)) open root)
      | _ => None
      end
  end.

(** The value of an attribute of an element. *)
Definition attr (key : string) (t : tree) : option string :=
  match t with
  | Element _ attrs _ => snd <$> List.find (fun kv => String.eqb key kv.1) attrs
  | Text _ => None
  end.

Definition children (t : tree) : list tree :=
  match t with
  | Element _ _ kids => kids
  | Text _ => []
  end.

(** The elements of the name [name] in a tree, the root included, in the
    order of the document. *)
Fixpoint iter (name : string) (t : tree) : list tree :=
  match t with
  | Element n _ kids =>
      ((if String.eqb n name then [t] else []) ++
       (fix below (l : list tree) : list tree :=
          match l with
          | [] => []
          | k :: l' => iter name k ++ below l'
          end) kids)%list
  | Text _ => []
  end.

(** The character data directly in an element. *)
Definition text_of (t : tree) : string :=
  fold_right (fun k acc => match k with Text s => s +:+ acc | _ => acc end) ""
    (children t).

End Xml.

Import Xml.

(* ===================================================================== *)
(** * The operating system as the script sees it *)
(* ===================================================================== *)

(** Files and directories are named by the path string the program uses:
    two different spellings are two different entries (no [.] or [..]
    segments, no links).  The empty relative directory is the current
    directory, which always exists; so does the root.  Paths are free of
    NUL characters and within the limits of the system on the length of a
    name.  Permissions, quotas and concurrent processes are not modelled:
    an operation fails only for the structural reasons below, and with the
    error Linux reports for them. *)

Module Os.

Inductive node : Type :=
  | File (content : string)
  | Dir.

Inductive exn : Type :=
  | FileNotFoundError
  | IsADirectoryError
  | NotADirectoryError
  | OSError
  | IndexError
  | CalledProcessError.

Inductive outcome (A : Type) : Type :=
  | Done (a : A)
  | Raise (e : exn).
Arguments Done {A} a.
Arguments Raise {A} e.

Record world : Type := World {
  fs : gmap string node;
  stdout : list string
}.

(** A computation runs in a world and either finishes or raises; what it
    did before raising stays done. *)
Definition M (A : Type) : Type := world -> outcome A * world.

Definition ret {A} (a : A) : M A := fun w => (Done a, w).

Definition bind {A B} (m : M A) (k : A -> M B) : M B :=
  fun w =>
    match m w with
    | (Done a, w') => k a w'
    | (Raise e, w') => (Raise e, w')
    end.

(** [try: body / except: handler]: a bare [except] catches everything. *)
Definition try_except {A} (body : M A) (handler : M A) : M A :=
  fun w =>
    match body w with
    | (Done a, w') => (Done a, w')
    | (Raise _, w') => handler w'
    end.

(** What is at the path [p], if anything; nothing is at the empty path. *)
Definition stat (f : gmap string node) (p : string) : option node :=
  if decide (p = "") then None else f !! p.

(** A regular file is at [p]. *)
Definition is_file (f : gmap string node) (p : string) : Prop :=
  exists content, stat f p = Some (File content).

(** The way to a path leads through the directories named by its proper
    prefixes that end before a separator.  [walk_from f seen rest] follows
    the way along [rest] when [seen] has been passed: the first prefix that
    is missing fails the lookup with a [FileNotFoundError], the first that
    is a regular file fails it with a [NotADirectoryError].  An empty
    prefix and a prefix that ends in a separator name the current
    directory, the root or the directory just passed. *)
Fixpoint walk_from (f : gmap string node) (seen rest : string) : option exn :=
  match rest with
  | "" => None
  | String c rest' =>
      let on := walk_from f (seen +:+ String c "") rest' in
      if Ascii.eqb c sep && negb (String.eqb seen "") && negb (endswith "/" seen)
      then match f !! seen with
           | Some Dir => on
           | Some (File _) => Some NotADirectoryError
           | None => Some FileNotFoundError
           end
      else on
  end.

Definition walk_error (f : gmap string node) (p : string) : option exn :=
  walk_from f "" p.

(** The error of a call that finds nothing at [p]: the error on the way to
    [p], or a [FileNotFoundError] for [p] itself. *)
Definition lookup_error (f : gmap string node) (p : string) : exn :=
  default FileNotFoundError (walk_error f p).

(** Why an entry cannot be created at [p]: its directory is a file, or the
    lookup of its directory fails. *)
Definition parent_error (f : gmap string node) (p : string) : option exn :=
  let d := dirname p in
  if decide (d = "") then None
  else if all_sep d then None
  else match f !! d with
       | Some Dir => None
       | Some (File _) => Some NotADirectoryError
       | None => Some (lookup_error f d)
       end.

(** Why [open(p, 'w')] fails, if it does.  A name with a separator at its
    end is refused as a directory once the way to it has been found. *)
Definition open_error (f : gmap string node) (p : string) : option exn :=
  if decide (p = "") then Some FileNotFoundError
  else if endswith "/" p
  then Some (default IsADirectoryError (parent_error f (rstrip_sep p)))
  else match f !! p with
       | Some Dir => Some IsADirectoryError
       | Some (File _) => None
       | None => parent_error f p
       end.

(** [with open(p, 'w') as h: h.write(content)] *)
Definition write_file (p content : string) : M unit :=
  fun w =>
    match open_error (fs w) p with
    | Some e => (Raise e, w)
    | None => (Done tt, World (<[p := File content]> (fs w)) (stdout w))
    end.

(** [os.path.exists(p)] *)
Definition path_exists (p : string) : M bool :=
  fun w => (Done (bool_decide (is_Some (stat (fs w) p))), w).

(** [p] lies below the directory [d]. *)
Definition under (d p : string) : bool := startswith (d +:+ "/") p.

(** The entry [kv] is the directory [d] or lies below it. *)
Definition in_tree (d : string) (kv : string * node) : Prop :=
  kv.1 = d \/ under d kv.1 = true.

(** The directory [d] is not empty. *)
Definition has_child (f : gmap string node) (d : string) : bool :=
  bool_decide (filter (fun kv : string * node => under d kv.1 = true) f <> ∅).

(** Moving the directory [src] to [dst] moves everything below it. *)
Definition reroot (src dst : string) (kv : string * node) : string * node :=
  (dst +:+ slice_from (String.length src) kv.1, kv.2).

Definition move_tree (src dst : string) (f : gmap string node) : gmap string node :=
  let moved : gmap string node :=
    list_to_map (reroot src dst <$> map_to_list (filter (in_tree src) f)) in
  <[dst := Dir]> (moved ∪ delete dst (filter (fun kv => ~ in_tree src kv) f)).

(** Why a file cannot be renamed to [dst].  A target with a separator at
    its end is refused once the way to it has been found. *)
Definition file_target_error (f : gmap string node) (dst : string) : option exn :=
  if decide (dst = "") then Some FileNotFoundError
  else if endswith "/" dst
  then Some (default NotADirectoryError (parent_error f (rstrip_sep dst)))
  else match f !! dst with
       | Some Dir => Some IsADirectoryError
       | _ => parent_error f dst
       end.

(** Why the directory [src] cannot be renamed to [dst]. *)
Definition dir_target_error (f : gmap string node) (src dst : string) : option exn :=
  if decide (dst = "") then Some FileNotFoundError
  else match parent_error f dst with
       | Some e => Some e
       | None =>
           if under src dst then Some OSError
           else match f !! dst with
                | Some (File _) => Some NotADirectoryError
                | Some Dir => if has_child f dst then Some OSError else None
                | None => None
                end
       end.

(** The error of [os.rename(src, dst)] when nothing is at [src]: the way to
    the source is looked up first, then the way to the target, and the
    source itself last. *)
Definition missing_source_error (f : gmap string node) (src dst : string) : exn :=
  if decide (src = "") then FileNotFoundError
  else match walk_error f (rstrip_sep src) with
       | Some e => e
       | None =>
           if decide (dst = "") then FileNotFoundError
           else match walk_error f (rstrip_sep dst) with
                | Some e => e
                | None => lookup_error f src
                end
       end.

(** [os.rename(src, dst)] *)
Definition os_rename (src dst : string) : M unit :=
  fun w =>
    match stat (fs w) src with
    | None => (Raise (missing_source_error (fs w) src dst), w)
    | Some n =>
        if decide (src = dst) then (Done tt, w)
        else
          match n with
          | File content =>
              match file_target_error (fs w) dst with
              | Some e => (Raise e, w)
              | None =>
                  (Done tt, World (<[dst := File content]> (delete src (fs w))) (stdout w))
              end
          | Dir =>
              match dir_target_error (fs w) src dst with
              | Some e => (Raise e, w)
              | None => (Done tt, World (move_tree src dst (fs w)) (stdout w))
              end
          end
    end.

(** [os.remove(p)].  For a directory it raises an [OSError]: the
    [IsADirectoryError] of Linux stands for it (macOS reports a
    [PermissionError]); the script catches either or never gets there. *)
Definition os_remove (p : string) : M unit :=
  fun w =>
    match stat (fs w) p with
    | None => (Raise (lookup_error (fs w) p), w)
    | Some Dir => (Raise IsADirectoryError, w)
    | Some (File _) => (Done tt, World (delete p (fs w)) (stdout w))
    end.

(** [print(s)] *)
Definition print (s : string) : M unit :=
  fun w => (Done tt, World (fs w) (stdout w ++ [s])).

(** An external program: from its arguments and the files it finds to an
    exit status and the files it leaves. *)
Definition program : Type := list string -> gmap string node -> Z * gmap string node.

(** [subprocess.run(argv, capture_output=True, check=True)], where [which]
    resolves a command name to the program installed under it. *)
Definition subprocess_run (which : string -> option program) (argv : list string) : M unit :=
  fun w =>
    match argv with
    | [] => (Raise IndexError, w)
    | cmd :: args =>
        match which cmd with
        | None => (Raise FileNotFoundError, w)
        | Some prog =>
            let '(status, f) := prog args (fs w) in
            if (status =? 0)%Z
            then (Done tt, World f (stdout w))
            else (Raise CalledProcessError, World f (stdout w))
        end
    end.

End Os.

Import Os.

Notation "x <- c1 ;; c2" := (bind c1 (fun x => c2))
  (at level 100, c1 at next level, right associativity).

(* ===================================================================== *)
(** * The script *)
(* ===================================================================== *)

Local Open Scope Z_scope.

(** Lines 11-43: the f-string. *)
Definition svg_content (width height : Z) : string :=
  "<?xml version=" +:+ q "1.0" +:+ " encoding=" +:+ q "UTF-8" +:+ "?>" +:+ nl +:+
  "<svg width=" +:+ q (str width) +:+ " height=" +:+ q (str height) +:+ " xmlns=" +:+ q "http://www.w3.org/2000/svg" +:+ ">" +:+ nl +:+
  "  <!-- Background gradient -->" +:+ nl +:+
  "  <defs>" +:+ nl +:+
  "    <linearGradient id=" +:+ q "bg" +:+ " x1=" +:+ q "0%" +:+ " y1=" +:+ q "0%" +:+ " x2=" +:+ q "0%" +:+ " y2=" +:+ q "100%" +:+ ">" +:+ nl +:+
  "      <stop offset=" +:+ q "0%" +:+ " style=" +:+ q "stop-color:#2d2d2d" +:+ "/>" +:+ nl +:+
  "      <stop offset=" +:+ q "100%" +:+ " style=" +:+ q "stop-color:#1a1a1a" +:+ "/>" +:+ nl +:+
  "    </linearGradient>" +:+ nl +:+
  "  </defs>" +:+ nl +:+
  "  <rect width=" +:+ q (str width) +:+ " height=" +:+ q (str height) +:+ " fill=" +:+ q "url(#bg)" +:+ "/>" +:+ nl +:+
  "  " +:+ nl +:+
  "  <!-- Arrow pointing from app to Applications -->" +:+ nl +:+
  "  <defs>" +:+ nl +:+
  "    <marker id=" +:+ q "arrowhead" +:+ " markerWidth=" +:+ q "10" +:+ " markerHeight=" +:+ q "7" +:+ " refX=" +:+ q "9" +:+ " refY=" +:+ q "3.5" +:+ " orient=" +:+ q "auto" +:+ ">" +:+ nl +:+
  "      <polygon points=" +:+ q "0 0, 10 3.5, 0 7" +:+ " fill=" +:+ q "#888888" +:+ "/>" +:+ nl +:+
  "    </marker>" +:+ nl +:+
  "  </defs>" +:+ nl +:+
  "  " +:+ nl +:+
  "  <!-- Arrow line -->" +:+ nl +:+
  "  <line x1=" +:+ q "380" +:+ " y1=" +:+ q "200" +:+ " x2=" +:+ q "220" +:+ " y2=" +:+ q "200" +:+ " " +:+ nl +:+
  "        stroke=" +:+ q "#888888" +:+ " stroke-width=" +:+ q "3" +:+ " " +:+ nl +:+
  "        marker-end=" +:+ q "url(#arrowhead)" +:+ nl +:+
  "        stroke-dasharray=" +:+ q "10,5" +:+ "/>" +:+ nl +:+
  "  " +:+ nl +:+
  "  <!-- Instruction text -->" +:+ nl +:+
  "  <text x=" +:+ q (str (width / 2)) +:+ " y=" +:+ q "340" +:+ " " +:+ nl +:+
  "        font-family=" +:+ q "SF Pro Display, Helvetica Neue, Arial" +:+ " " +:+ nl +:+
  "        font-size=" +:+ q "16" +:+ " " +:+ nl +:+
  "        fill=" +:+ q "#999999" +:+ " " +:+ nl +:+
  "        text-anchor=" +:+ q "middle" +:+ ">" +:+ nl +:+
  "    Drag Extremis to Applications to install" +:+ nl +:+
  "  </text>" +:+ nl +:+
  "</svg>".

(** Line 45. *)
Definition svg_path (output_path : string) : string :=
  replace ".png" ".svg" output_path.

(** Line 60. *)
Definition generated (output_path : string) : string :=
  svg_path output_path +:+ ".png".

(** Lines 54-57: the argument list handed to [subprocess.run]. *)
Definition qlmanage_argv (output_path : string) (width height : Z) : list string :=
  [ "qlmanage"; "-t"; "-s"; str (Z.max width height); "-o";
    (if decide (dirname output_path = "") then "." else dirname output_path);
    svg_path output_path ].

Section Host.

(** What is installed on the machine. *)
Variable which : string -> option program.

(** Lines 54-64: the body of the [try].  [Some true] is the [return True]
    of line 64; [None] means the body ran to its end. *)
Definition conversion (output_path : string) (width height : Z) : M (option bool) :=
  _ <- subprocess_run which (qlmanage_argv output_path width height) ;;
  found <- path_exists (generated output_path) ;;
  if found : bool then
    _ <- os_rename (generated output_path) output_path ;;
    _ <- os_remove (svg_path output_path) ;;
    ret (Some true)
  else ret None.

(** Lines 68-71. *)
Definition fallback (output_path : string) : M bool :=
  _ <- os_rename (svg_path output_path) (replace ".png" ".svg" output_path) ;;
  _ <- print "Created SVG background (PNG conversion not available)" ;;
  ret false.

(** Lines 53-71: the [try] with its bare [except: pass], then the
    fallback unless the [try] has returned. *)
Definition convert_or_keep (output_path : string) (width height : Z) : M bool :=
  r <- try_except (conversion output_path width height) (ret None) ;;
  match r with
  | Some b => ret b
  | None => fallback output_path
  end.

(** Lines 7-71. *)
Definition create_background (output_path : string) (width height : Z) : M bool :=
  _ <- write_file (svg_path output_path) (svg_content width height) ;;
  convert_or_keep output_path width height.

(** The files the rasterizer leaves when it is started on [f] (the files
    as they are if it cannot be started). *)
Definition rasterized (output_path : string) (width height : Z)
    (f : gmap string node) : gmap string node :=
  match which "qlmanage" with
  | None => f
  | Some prog => (prog (tail (qlmanage_argv output_path width height)) f).2
  end.

(** The three ways in which the rasterization can fail to deliver, seen
    from the files [f] it starts on and the files [f'] it leaves: the
    utility is not installed, it exits with a non-zero status, or the
    expected file is not there afterwards. *)
Definition rasterizer_fails (output_path : string) (width height : Z)
    (f f' : gmap string node) : Prop :=
  (which "qlmanage" = None /\ f' = f) \/
  (exists prog status,
      which "qlmanage" = Some prog /\
      prog (tail (qlmanage_argv output_path width height)) f = (status, f') /\
      (status <> 0 \/ stat f' (generated output_path) = None)).

(** A rasterizer that does the same thing whenever it is asked: it is not
    installed, or it fails and leaves the files alone, or it writes the
    thumbnail [png] next to the SVG and exits with status 0. *)
Inductive steady (output_path : string) (width height : Z) : Prop :=
  | steady_absent :
      which "qlmanage" = None -> steady output_path width height
  | steady_failing prog status :
      which "qlmanage" = Some prog -> status <> 0 ->
      (forall f, prog (tail (qlmanage_argv output_path width height)) f = (status, f)) ->
      steady output_path width height
  | steady_rendering prog png :
      which "qlmanage" = Some prog ->
      (forall f, prog (tail (qlmanage_argv output_path width height)) f
                 = (0, <[generated output_path := File png]> f)) ->
      steady output_path width height.

End Host.

(* ===================================================================== *)
(** * Machines to run the script on *)
(* ===================================================================== *)

(** No utility is installed. *)
Definition no_tools : string -> option program := fun _ => None.

(** Only [qlmanage] is installed, as the program [prog]. *)
Definition only_qlmanage (prog : program) : string -> option program :=
  fun cmd => if decide (cmd = "qlmanage") then Some prog else None.

(** A thumbnailer as line 59 expects it: it adds [.png] to the name of its
    input (its last argument) and writes the picture [png] there. *)
Definition thumbnailer (png : string) : program :=
  fun args f =>
    match last args with
    | Some input => (0, <[input +:+ ".png" := File png]> f)
    | None => (1, f)
    end.

(** A thumbnailer that reports success without writing anything. *)
Definition idle_thumbnailer : program := fun _ f => (0, f).

(** A thumbnailer that consumes its input: it turns the SVG into the
    picture, so that the SVG is gone afterwards. *)
Definition consuming_thumbnailer (png : string) : program :=
  fun args f =>
    match last args with
    | Some input => (0, <[input +:+ ".png" := File png]> (delete input f))
    | None => (1, f)
    end.

(** A utility that removes its input and then fails. *)
Definition crashing_thumbnailer : program :=
  fun args f =>
    match last args with
    | Some input => (1, delete input f)
    | None => (1, f)
    end.

(** A utility that puts a regular file in the place of the directory [d],
    with all that was below it gone, and then fails. *)
Definition replacing_thumbnailer (d : string) : program :=
  fun _ f =>
    (1, <[d := File ""]> (filter (fun kv : string * node => under d kv.1 = false) f)).

(* ===================================================================== *)
(** * An outline of the document *)
(* ===================================================================== *)

(** The f-string once more, cut at its tags: what stands between [<name ]
    and the closing [>] of the tags that the properties look at, and the
    text around them. *)

Definition prolog : string :=
  "<?xml version=" +:+ q "1.0" +:+ " encoding=" +:+ q "UTF-8" +:+ "?>" +:+ nl.

Definition svg_attrs (width height : Z) : string :=
  "width=" +:+ dq +:+ str width +:+ dq +:+ " height=" +:+ dq +:+ str height +:+ dq +:+
  " xmlns=" +:+ q "http://www.w3.org/2000/svg".

Definition gradient_lead : string :=
  nl +:+
  "  <!-- Background gradient -->" +:+ nl +:+
  "  <defs>" +:+ nl +:+
  "    ".

Definition gradient_attrs : string :=
  "id=" +:+ q "bg" +:+ " x1=" +:+ q "0%" +:+ " y1=" +:+ q "0%" +:+ " x2=" +:+ q "0%" +:+
  " y2=" +:+ q "100%".

Definition rect_lead : string :=
  nl +:+
  "      <stop offset=" +:+ q "0%" +:+ " style=" +:+ q "stop-color:#2d2d2d" +:+ "/>" +:+ nl +:+
  "      <stop offset=" +:+ q "100%" +:+ " style=" +:+ q "stop-color:#1a1a1a" +:+ "/>" +:+ nl +:+
  "    </linearGradient>" +:+ nl +:+
  "  </defs>" +:+ nl +:+
  "  ".

Definition rect_attrs (width height : Z) : string :=
  "width=" +:+ dq +:+ str width +:+ dq +:+ " height=" +:+ dq +:+ str height +:+ dq +:+
  " fill=" +:+ q "url(#bg)" +:+ "/".

Definition marker_lead : string :=
  nl +:+
  "  " +:+ nl +:+
  "  <!-- Arrow pointing from app to Applications -->" +:+ nl +:+
  "  <defs>" +:+ nl +:+
  "    ".

Definition marker_attrs : string :=
  "id=" +:+ q "arrowhead" +:+ " markerWidth=" +:+ q "10" +:+ " markerHeight=" +:+ q "7" +:+
  " refX=" +:+ q "9" +:+ " refY=" +:+ q "3.5" +:+ " orient=" +:+ q "auto".

Definition line_lead : string :=
  nl +:+
  "      <polygon points=" +:+ q "0 0, 10 3.5, 0 7" +:+ " fill=" +:+ q "#888888" +:+ "/>" +:+ nl +:+
  "    </marker>" +:+ nl +:+
  "  </defs>" +:+ nl +:+
  "  " +:+ nl +:+
  "  <!-- Arrow line -->" +:+ nl +:+
  "  ".

Definition line_attrs : string :=
  "x1=" +:+ q "380" +:+ " y1=" +:+ q "200" +:+ " x2=" +:+ q "220" +:+ " y2=" +:+ q "200" +:+ " " +:+ nl +:+
  "        stroke=" +:+ q "#888888" +:+ " stroke-width=" +:+ q "3" +:+ " " +:+ nl +:+
  "        marker-end=" +:+ q "url(#arrowhead)" +:+ nl +:+
  "        stroke-dasharray=" +:+ q "10,5" +:+ "/".

Definition text_lead : string :=
  nl +:+
  "  " +:+ nl +:+
  "  <!-- Instruction text -->" +:+ nl +:+
  "  ".

Definition text_style : string :=
  " " +:+ nl +:+
  "        font-family=" +:+ q "SF Pro Display, Helvetica Neue, Arial" +:+ " " +:+ nl +:+
  "        font-size=" +:+ q "16" +:+ " " +:+ nl +:+
  "        fill=" +:+ q "#999999" +:+ " " +:+ nl +:+
  "        text-anchor=" +:+ q "middle".

Definition text_attrs (width : Z) : string :=
  "x=" +:+ dq +:+ str (width / 2) +:+ dq +:+ " y=" +:+ q "340" +:+ text_style.

Definition text_body : string :=
  nl +:+ "    Drag Extremis to Applications to install" +:+ nl +:+ "  ".

Definition epilog : string := nl +:+ "</svg>".

(** The document up to a tag, tag by tag. *)
Definition upto_gradient (width height : Z) : string :=
  prolog +:+ opening "svg" +:+ svg_attrs width height +:+ ">" +:+ gradient_lead.

Definition upto_rect (width height : Z) : string :=
  upto_gradient width height +:+
  opening "linearGradient" +:+ gradient_attrs +:+ ">" +:+ rect_lead.

Definition upto_marker (width height : Z) : string :=
  upto_rect width height +:+
  opening "rect" +:+ rect_attrs width height +:+ ">" +:+ marker_lead.

Definition upto_line (width height : Z) : string :=
  upto_marker width height +:+
  opening "marker" +:+ marker_attrs +:+ ">" +:+ line_lead.

Definition upto_text (width height : Z) : string :=
  upto_line width height +:+
  opening "line" +:+ line_attrs +:+ ">" +:+ text_lead.

Definition outline (width height : Z) : string :=
  upto_text width height +:+
  opening "text" +:+ text_attrs width +:+ ">" +:+
  text_body +:+ "</text>" +:+
  epilog.

(** The sentence that instructs the user. *)
Definition instruction : string := "Drag Extremis to Applications to install".

(** The notice of line 70. *)
Definition fallback_notice : string :=
  "Created SVG background (PNG conversion not available)".

(** The document as a tree, with the three printed numbers in their
    places. *)
Definition document (width height middle : string) : tree :=
  Element "svg"
    [("width", width); ("height", height); ("xmlns", "http://www.w3.org/2000/svg")]
    [ Element "defs" []
        [ Element "linearGradient"
            [("id", "bg"); ("x1", "0%"); ("y1", "0%"); ("x2", "0%"); ("y2", "100%")]
            [ Element "stop" [("offset", "0%"); ("style", "stop-color:#2d2d2d")] [];
              Element "stop" [("offset", "100%"); ("style", "stop-color:#1a1a1a")] [] ] ];
      Element "rect" [("width", width); ("height", height); ("fill", "url(#bg)")] [];
      Element "defs" []
        [ Element "marker"
            [("id", "arrowhead"); ("markerWidth", "10"); ("markerHeight", "7");
             ("refX", "9"); ("refY", "3.5"); ("orient", "auto")]
            [ Element "polygon" [("points", "0 0, 10 3.5, 0 7"); ("fill", "#888888")] [] ] ];
      Element "line"
        [("x1", "380"); ("y1", "200"); ("x2", "220"); ("y2", "200");
         ("stroke", "#888888"); ("stroke-width", "3");
         ("marker-end", "url(#arrowhead)"); ("stroke-dasharray", "10,5")] [];
      Element "text"
        [("x", middle); ("y", "340");
         ("font-family", "SF Pro Display, Helvetica Neue, Arial");
         ("font-size", "16"); ("fill", "#999999"); ("text-anchor", "middle")]
        [ Text text_body ] ].

(* ===================================================================== *)
(** * The entry point *)
(* ===================================================================== *)


Section Entry.

Variable which : string -> option program.


End Entry.


(* ===================================================================== *)
(** * The definitions at work *)
(* ===================================================================== *)

Example replace_extension :
  replace ".png" ".svg" "dmg_background.png" = "dmg_background.svg".
Proof. reflexivity. Qed.

Example replace_every_occurrence :
  replace ".png" ".svg" "shots.png/out.png" = "shots.svg/out.svg".
Proof. reflexivity. Qed.

Example replace_empty_old : replace "" "-" "abc" = "-a-b-c-".
Proof. reflexivity. Qed.

Example str_of_integers : str 600 = "600" /\ str 0 = "0" /\ str (-5) = "-5".
Proof. split_and!; reflexivity. Qed.

Example dirname_of_paths :
  dirname "out.png" = "" /\ dirname "build/dmg/out.png" = "build/dmg" /\
  dirname "/out.png" = "/" /\ dirname "a//b" = "a" /\ dirname "//a" = "//".
Proof. split_and!; reflexivity. Qed.

Example qlmanage_argv_default :
  qlmanage_argv "dmg_background.png" 600 400
  = ["qlmanage"; "-t"; "-s"; "600"; "-o"; "."; "dmg_background.svg"].
Proof. reflexivity. Qed.

Example rename_directory :
  os_rename "old" "new"
    (World {[ "old" := Dir; "old/a.svg" := File "a"; "older" := File "b" ]} [])
  = (Done tt, World {[ "new" := Dir; "new/a.svg" := File "a"; "older" := File "b" ]} []).
Proof. vm_compute. reflexivity. Qed.

Example rename_file_onto_directory :
  os_rename "a.png" "dir" (World {[ "a.png" := File "a"; "dir" := Dir ]} [])
  = (Raise IsADirectoryError, World {[ "a.png" := File "a"; "dir" := Dir ]} []).
Proof. vm_compute. reflexivity. Qed.

(** The errors of [open(p, 'w')], of [os.rename] and of [os.remove] in a
    directory with a regular file [file] and a directory [dir]. *)
Example open_errors :
  let f : gmap string node := {[ "file" := File "x"; "dir" := Dir ]} in
  open_error f "" = Some FileNotFoundError /\
  open_error f "missing/x" = Some FileNotFoundError /\
  open_error f "missing/x/" = Some FileNotFoundError /\
  open_error f "file/x" = Some NotADirectoryError /\
  open_error f "file/x/y" = Some NotADirectoryError /\
  open_error f "x/" = Some IsADirectoryError /\
  open_error f "dir" = Some IsADirectoryError /\
  open_error f "dir/x" = None /\
  open_error f "file" = None.
Proof. split_and!; vm_compute; reflexivity. Qed.

Example rename_errors :
  let W := World {[ "file" := File "x"; "dir" := Dir ]} [] in
  os_rename "nosuch" "nosuch" W = (Raise FileNotFoundError, W) /\
  os_rename "missing/x" "missing/x" W = (Raise FileNotFoundError, W) /\
  os_rename "file/x" "file/x" W = (Raise NotADirectoryError, W) /\
  os_rename "nosuch" "file/x" W = (Raise NotADirectoryError, W) /\
  os_rename "file/x" "missing/y" W = (Raise NotADirectoryError, W) /\
  os_rename "missing/x" "file/y" W = (Raise FileNotFoundError, W) /\
  os_rename "file" "missing/x/" W = (Raise FileNotFoundError, W) /\
  os_rename "file" "x/" W = (Raise NotADirectoryError, W) /\
  os_rename "file" "file" W = (Done tt, W).
Proof. split_and!; vm_compute; reflexivity. Qed.

Example remove_errors :
  let W := World {[ "file" := File "x"; "dir" := Dir ]} [] in
  os_remove "nosuch" W = (Raise FileNotFoundError, W) /\
  os_remove "file/x" W = (Raise NotADirectoryError, W) /\
  os_remove "dir" W = (Raise IsADirectoryError, W).
Proof. split_and!; vm_compute; reflexivity. Qed.

Example prints_up_to_the_limit :
  prints 600 = true /\ prints (10 ^ 4300 - 1) = true /\
  prints (10 ^ 4300) = false /\ prints (- 10 ^ 4300) = false.
Proof. split_and!; vm_compute; reflexivity. Qed.

(* ===================================================================== *)
(** * Facts about strings *)
(* ===================================================================== *)

Section StringFacts.

Implicit Types (a b c s t pat : string) (x y : ascii).

Lemma app_cons x a b : String x a +:+ b = String x (a +:+ b).
Proof. reflexivity. Qed.

Lemma app_empty_r a : a +:+ "" = a.
Proof. induction a as [|x a IH]; [reflexivity|]. rewrite app_cons. by f_equal. Qed.

Lemma app_assoc_str a b c : (a +:+ b) +:+ c = a +:+ b +:+ c.
Proof. induction a as [|x a IH]; [reflexivity|]. rewrite !app_cons. by f_equal. Qed.

Lemma length_app_str a b :
  String.length (a +:+ b) = (String.length a + String.length b)%nat.
Proof. induction a as [|x a IH]; [reflexivity|]. rewrite app_cons. simpl. by f_equal. Qed.

(** Two ways of cutting one string at the same distance from its end. *)
Lemma app_inv_same_length a b c d :
  a +:+ c = b +:+ d -> String.length c = String.length d -> a = b /\ c = d.
Proof.
  revert b. induction a as [|x a IH]; intros [|y b] E L.
  - by split.
  - exfalso. apply (f_equal String.length) in E.
    rewrite !length_app_str in E. simpl in E. lia.
  - exfalso. apply (f_equal String.length) in E.
    rewrite !length_app_str in E. simpl in E. lia.
  - rewrite !app_cons in E. injection E as -> E.
    destruct (IH _ E L) as [-> ->]. by split.
Qed.

Lemma startswith_cons x pat y s :
  startswith (String x pat) (String y s) = Ascii.eqb x y && startswith pat s.
Proof. reflexivity. Qed.

Lemma slice_from_app a b : slice_from (String.length a) (a +:+ b) = b.
Proof. induction a as [|x a IH]; [by destruct b|]. exact IH. Qed.

Lemma startswith_app pat s : startswith pat (pat +:+ s) = true.
Proof.
  induction pat as [|x pat IH]; [reflexivity|].
  rewrite app_cons. simpl. by rewrite Ascii.eqb_refl.
Qed.

Lemma startswith_inv pat s :
  startswith pat s = true -> s = pat +:+ slice_from (String.length pat) s.
Proof.
  revert s. induction pat as [|x pat IH]; intros s H; [reflexivity|].
  destruct s as [|y s]; [discriminate|]. simpl in H.
  apply andb_true_iff in H as [Hx Hs]. apply Ascii.eqb_eq in Hx as ->.
  rewrite app_cons. simpl. f_equal. by apply IH.
Qed.

Lemma startswith_length pat s :
  startswith pat s = true -> (String.length pat <= String.length s)%nat.
Proof.
  intros H. rewrite (startswith_inv _ _ H), length_app_str. lia.
Qed.

(** A pattern that fits into [s] does not look beyond [s]. *)
Lemma startswith_app_fits pat s t :
  (String.length pat <= String.length s)%nat ->
  startswith pat (s +:+ t) = startswith pat s.
Proof.
  revert s. induction pat as [|x pat IH]; intros s L; [reflexivity|].
  destruct s as [|y s]; [simpl in L; lia|].
  rewrite app_cons. simpl. rewrite IH; [done|]. simpl in L. lia.
Qed.

(** A pattern cannot run across a character it does not contain. *)
Lemma startswith_across pat s x t :
  occurs x pat = false ->
  startswith pat (s +:+ String x t) = startswith pat s.
Proof.
  revert s. induction pat as [|y pat IH]; intros s H; [reflexivity|].
  simpl in H. apply orb_false_iff in H as [Hy H].
  destruct s as [|z s].
  - simpl. rewrite Ascii.eqb_sym, Hy. reflexivity.
  - rewrite app_cons. simpl. by rewrite IH.
Qed.

Lemma endswith_app stem suf : endswith suf (stem +:+ suf) = true.
Proof.
  induction stem as [|x stem IH].
  - destruct suf; simpl; rewrite ?Ascii.eqb_refl, ?String.eqb_refl; reflexivity.
  - rewrite app_cons. simpl. rewrite IH. apply orb_true_r.
Qed.

Lemma endswith_inv suf s :
  endswith suf s = true -> exists stem, s = stem +:+ suf.
Proof.
  induction s as [|x s IH]; intros H.
  - destruct suf; [by exists ""|discriminate].
  - change (endswith suf (String x s))
      with (String.eqb (String x s) suf || endswith suf s) in H.
    apply orb_true_iff in H as [H|H].
    + apply String.eqb_eq in H as <-. by exists "".
    + destruct (IH H) as [stem ->]. by exists (String x stem).
Qed.

End StringFacts.

(** ** [str.replace] *)

Section ReplaceFacts.

Implicit Types (old new s t : string) (x y : ascii).

Lemma replace_scan_skip old new k s :
  replace_scan old new k s = replace_scan old new 0 (slice_from k s).
Proof.
  revert k. induction s as [|x s IH]; intros [|k]; try reflexivity.
  simpl. apply IH.
Qed.

(** The three equations that describe [replace] for a non-empty [old]. *)
Lemma replace_empty x old new : replace (String x old) new "" = "".
Proof. reflexivity. Qed.

Lemma replace_hit x old new s :
  replace (String x old) new (String x old +:+ s)
  = new +:+ replace (String x old) new s.
Proof.
  unfold replace. rewrite app_cons.
  change (replace_scan (String x old) new 0 (String x (old +:+ s)))
    with (if startswith (String x old) (String x (old +:+ s))
          then new +:+ replace_scan (String x old) new (String.length old) (old +:+ s)
          else String x (replace_scan (String x old) new 0 (old +:+ s))).
  rewrite <- app_cons, startswith_app, replace_scan_skip, slice_from_app.
  reflexivity.
Qed.

Lemma replace_miss old new x s :
  old <> "" -> startswith old (String x s) = false ->
  replace old new (String x s) = String x (replace old new s).
Proof.
  intros Hne H. destruct old as [|y old]; [done|].
  unfold replace.
  change (replace_scan (String y old) new 0 (String x s))
    with (if startswith (String y old) (String x s)
          then new +:+ replace_scan (String y old) new (String.length old) s
          else String x (replace_scan (String y old) new 0 s)).
  by rewrite H.
Qed.

(** Induction along the scan: nothing left, an occurrence at the front, or
    a character that is copied. *)
Lemma replace_ind old (P : string -> Prop) :
  old <> "" ->
  P "" ->
  (forall s, P s -> P (old +:+ s)) ->
  (forall x s, startswith old (String x s) = false -> P s -> P (String x s)) ->
  forall s, P s.
Proof.
  intros Hne H0 Hhit Hmiss s.
  remember (String.length s) as n eqn:Hn.
  revert s Hn. induction n as [n IH] using lt_wf_ind. intros s ->.
  destruct s as [|x s]; [exact H0|].
  destruct (startswith old (String x s)) eqn:E.
  - rewrite (startswith_inv _ _ E). apply Hhit.
    apply (IH (String.length (slice_from (String.length old) (String x s)))); [|done].
    pose proof (startswith_inv _ _ E) as E2.
    apply (f_equal String.length) in E2. rewrite length_app_str in E2.
    destruct old; [done|]. simpl in *. lia.
  - apply Hmiss; [done|]. apply (IH (String.length s)); [simpl; lia|done].
Qed.

End ReplaceFacts.

(** ** The path of the intermediate SVG *)

Section SvgPathFacts.

Implicit Types (p s stem : string) (x : ascii).

Lemma svg_path_hit s : svg_path (".png" +:+ s) = ".svg" +:+ svg_path s.
Proof. apply replace_hit. Qed.

Lemma svg_path_miss x s :
  startswith ".png" (String x s) = false ->
  svg_path (String x s) = String x (svg_path s).
Proof. by apply replace_miss. Qed.

Lemma svg_path_ind (P : string -> Prop) :
  P "" ->
  (forall s, P s -> P (".png" +:+ s)) ->
  (forall x s, startswith ".png" (String x s) = false -> P s -> P (String x s)) ->
  forall s, P s.
Proof. by apply replace_ind. Qed.

Lemma svg_path_length p : String.length (svg_path p) = String.length p.
Proof.
  induction p as [|s IH|x s E IH] using svg_path_ind; [reflexivity| |].
  - rewrite svg_path_hit, !length_app_str, IH. reflexivity.
  - rewrite svg_path_miss by done. simpl. by rewrite IH.
Qed.

(** The replacement leaves the beginning of the text alone as far as a
    pattern without a dot can see. *)
Lemma startswith_svg_path pat s :
  occurs "." pat = false -> startswith pat (svg_path s) = startswith pat s.
Proof.
  revert s. induction pat as [|a pat IH]; intros s H; [reflexivity|].
  change (occurs "." (String a pat))
    with (Ascii.eqb "." a || occurs "." pat) in H.
  apply orb_false_iff in H as [Ha H].
  destruct s as [|x s]; [reflexivity|].
  destruct (startswith ".png" (String x s)) eqn:E.
  - rewrite (startswith_inv _ _ E), svg_path_hit, !app_cons.
    rewrite !(startswith_cons a), Ascii.eqb_sym, Ha. reflexivity.
  - rewrite svg_path_miss by done. simpl. by rewrite IH.
Qed.

(** Every occurrence is replaced: none is left, and none is created. *)
Lemma svg_path_no_png p : occurrences ".png" (svg_path p) = 0%nat.
Proof.
  induction p as [|s IH|x s E IH] using svg_path_ind; [reflexivity| |].
  - rewrite svg_path_hit, !app_cons. cbn. exact IH.
  - rewrite svg_path_miss by done.
    change (occurrences ".png" (String x (svg_path s)))
      with ((if startswith ".png" (String x (svg_path s)) then 1 else 0)
            + occurrences ".png" (svg_path s))%nat.
    rewrite IH.
    rewrite (startswith_cons "." "png" x (svg_path s)), startswith_svg_path by done.
    rewrite <- startswith_cons, E. reflexivity.
Qed.

(** A path without [.png] is its own SVG path. *)
Lemma svg_path_fixed p : occurrences ".png" p = 0%nat -> svg_path p = p.
Proof.
  induction p as [|x s IH]; intros H; [reflexivity|].
  change (occurrences ".png" (String x s))
    with ((if startswith ".png" (String x s) then 1 else 0)
          + occurrences ".png" s)%nat in H.
  destruct (startswith ".png" (String x s)) eqn:E; [discriminate|].
  rewrite svg_path_miss by done. f_equal. by apply IH.
Qed.

Lemma endswith_cons suf x s :
  endswith suf s = true -> endswith suf (String x s) = true.
Proof. intros H. simpl. rewrite H. apply orb_true_r. Qed.

Lemma endswith_app_l suf a s :
  endswith suf s = true -> endswith suf (a +:+ s) = true.
Proof.
  intros H. induction a as [|x a IH]; [done|].
  rewrite app_cons. by apply endswith_cons.
Qed.

(** A path that ends in [.png] gets an SVG path that ends in [.svg]. *)
Lemma svg_path_ends p :
  endswith ".png" p = true -> endswith ".svg" (svg_path p) = true.
Proof.
  induction p as [|s IH|x s E IH] using svg_path_ind; [discriminate| |]; intros H.
  - rewrite svg_path_hit. destruct s as [|y s]; [reflexivity|].
    apply endswith_app_l, IH. exact H.
  - rewrite svg_path_miss by done. apply endswith_cons, IH.
    change (endswith ".png" (String x s))
      with (String.eqb (String x s) ".png" || endswith ".png" s) in H.
    apply orb_true_iff in H as [H|H]; [|done].
    apply String.eqb_eq in H. rewrite H in E. discriminate.
Qed.

(** With [.png] only as the extension, the extension is what changes. *)
Lemma svg_path_single stem :
  occurrences ".png" stem = 0%nat -> svg_path (stem +:+ ".png") = stem +:+ ".svg".
Proof.
  induction stem as [|x s IH]; intros H; [reflexivity|].
  change (occurrences ".png" (String x s))
    with ((if startswith ".png" (String x s) then 1 else 0)
          + occurrences ".png" s)%nat in H.
  destruct (startswith ".png" (String x s)) eqn:E; [discriminate|].
  rewrite !app_cons, svg_path_miss, IH; [done..|].
  rewrite (startswith_cons "." "png"), (startswith_across "png" s "." "png") by done.
  rewrite <- startswith_cons. exact E.
Qed.

Lemma svg_path_ne_output p : endswith ".png" p = true -> svg_path p <> p.
Proof.
  intros H E. pose proof (svg_path_ends _ H) as H'.
  apply endswith_inv in H as [a Ha]. apply endswith_inv in H' as [b Hb].
  rewrite E, Ha in Hb.
  by destruct (app_inv_same_length _ _ _ _ Hb eq_refl) as [_ ?].
Qed.

Lemma generated_ne_svg_path p : generated p <> svg_path p.
Proof.
  intros E. apply (f_equal String.length) in E.
  unfold generated in E. rewrite length_app_str in E. simpl in E. lia.
Qed.

Lemma generated_ne_output p : generated p <> p.
Proof.
  intros E. apply (f_equal String.length) in E.
  unfold generated in E. rewrite length_app_str, svg_path_length in E.
  simpl in E. lia.
Qed.

Lemma generated_nonempty p : generated p <> "".
Proof. unfold generated. by destruct (svg_path p). Qed.

End SvgPathFacts.

(** ** [dirname] sees no extension *)

Section DirnameFacts.

Implicit Types (s e : string).

Lemma has_sep_app s e : has_sep (s +:+ e) = has_sep s || has_sep e.
Proof.
  induction s as [|x s IH]; [reflexivity|].
  rewrite app_cons. simpl. by rewrite IH, orb_assoc.
Qed.

Lemma head_of_no_sep e : has_sep e = false -> head_of e = "".
Proof. destruct e as [|x e]; [done|]. intros H. simpl in *. by rewrite H. Qed.

Lemma head_of_app s e : has_sep e = false -> head_of (s +:+ e) = head_of s.
Proof.
  intros H. induction s as [|x s IH]; [by apply head_of_no_sep|].
  rewrite app_cons. simpl. by rewrite has_sep_app, H, orb_false_r, IH.
Qed.

Lemma dirname_app s e : has_sep e = false -> dirname (s +:+ e) = dirname s.
Proof. intros H. unfold dirname. by rewrite head_of_app. Qed.

End DirnameFacts.

(* ===================================================================== *)
(** * Facts about the text reader *)
(* ===================================================================== *)

Section ScanFacts.

Implicit Types (a b s v pat stop : string) (x y : ascii).

Lemma occurrences_cons pat x s :
  occurrences pat (String x s)
  = ((if startswith pat (String x s) then 1 else 0) + occurrences pat s)%nat.
Proof. reflexivity. Qed.

Lemma occurrences_empty pat : pat <> "" -> occurrences pat "" = 0%nat.
Proof. by destruct pat. Qed.

Lemma occurs_cons x y s : occurs x (String y s) = Ascii.eqb x y || occurs x s.
Proof. reflexivity. Qed.

Lemma apart_cons pat x v :
  apart pat (String x v) = negb (occurs x pat) && apart pat v.
Proof. reflexivity. Qed.

(** A pattern does not start at a character it does not contain. *)
Lemma startswith_absent pat x s :
  pat <> "" -> occurs x pat = false -> startswith pat (String x s) = false.
Proof.
  destruct pat as [|y pat]; [done|]. intros _ H.
  rewrite occurs_cons in H. apply orb_false_iff in H as [H _].
  by rewrite startswith_cons, Ascii.eqb_sym, H.
Qed.

(** ** Texts with a hole

    [a +:+ v +:+ b] where no character of [v] occurs in the pattern: the
    pattern can neither start inside [v] nor run across it. *)

Lemma startswith_hole pat a v b :
  apart pat v = true -> v <> "" ->
  startswith pat (a +:+ v +:+ b) = startswith pat a.
Proof.
  intros H Hv. destruct v as [|x v]; [done|].
  rewrite apart_cons in H. apply andb_true_iff in H as [H _].
  apply negb_true_iff in H. rewrite app_cons. by apply startswith_across.
Qed.

Lemma occurrences_skip pat v b :
  pat <> "" -> apart pat v = true ->
  occurrences pat (v +:+ b) = occurrences pat b.
Proof.
  intros Hp. induction v as [|x v IH]; intros H; [reflexivity|].
  rewrite apart_cons in H. apply andb_true_iff in H as [Hx H].
  apply negb_true_iff in Hx.
  rewrite app_cons, occurrences_cons, startswith_absent by done.
  by apply IH.
Qed.

Lemma occurrences_hole pat a v b :
  pat <> "" -> apart pat v = true -> v <> "" ->
  occurrences pat (a +:+ v +:+ b) = (occurrences pat a + occurrences pat b)%nat.
Proof.
  intros Hp H Hv. induction a as [|x a IH].
  - rewrite occurrences_empty by done. by apply (occurrences_skip pat v b).
  - rewrite app_cons, !occurrences_cons, <- app_cons, startswith_hole, IH by done.
    lia.
Qed.

(** ** The first occurrence *)

Lemma find_from_cons pat x s :
  find_from pat (String x s)
  = if startswith pat (String x s) then Some (String x s) else find_from pat s.
Proof. reflexivity. Qed.

Lemma take_until_cons stop x s :
  take_until stop (String x s)
  = if startswith stop (String x s) then Some ""
    else option_map (String x) (take_until stop s).
Proof. reflexivity. Qed.

Lemma find_from_here pat s : startswith pat s = true -> find_from pat s = Some s.
Proof. intros H. destruct s; simpl; by rewrite H. Qed.

Lemma take_until_here stop s : startswith stop s = true -> take_until stop s = Some "".
Proof. intros H. destruct s; simpl; by rewrite H. Qed.

Lemma occurrences_here pat s :
  startswith pat s = true -> (1 <= occurrences pat s)%nat.
Proof. intros H. destruct s; simpl; rewrite H; lia. Qed.

Lemma occurrences_app_l pat a s :
  (occurrences pat s <= occurrences pat (a +:+ s))%nat.
Proof.
  induction a as [|x a IH]; [done|]. rewrite app_cons, occurrences_cons. lia.
Qed.

(** If [pat] occurs in [pre +:+ pat] only at the end, its first occurrence
    in [pre +:+ pat +:+ post] is the one after [pre]. *)
Lemma find_from_unique pat pre post :
  occurrences pat (pre +:+ pat) = 1%nat ->
  find_from pat (pre +:+ pat +:+ post) = Some (pat +:+ post).
Proof.
  induction pre as [|x pre IH]; intros H.
  - apply find_from_here, (startswith_app pat post).
  - rewrite app_cons, occurrences_cons in H.
    assert (1 <= occurrences pat (pre +:+ pat))%nat as Hge.
    { etrans; [|apply occurrences_app_l]. apply occurrences_here.
      rewrite <- (app_empty_r pat) at 2. apply startswith_app. }
    destruct (startswith pat (String x (pre +:+ pat))) eqn:E; [lia|].
    rewrite app_cons, find_from_cons.
    replace (startswith pat (String x (pre +:+ pat +:+ post))) with false.
    + apply IH. lia.
    + rewrite <- E, <- !app_cons, <- app_assoc_str.
      symmetry. apply startswith_app_fits.
      rewrite length_app_str. lia.
Qed.

Lemma take_until_unique stop body post :
  occurrences stop (body +:+ stop) = 1%nat ->
  take_until stop (body +:+ stop +:+ post) = Some body.
Proof.
  intros H. induction body as [|x body IH].
  - apply take_until_here, (startswith_app stop post).
  - pose proof (find_from_unique _ _ post H) as F.
    rewrite app_cons, occurrences_cons in H.
    rewrite app_cons, find_from_cons in F.
    rewrite app_cons, take_until_cons.
    destruct (startswith stop (String x (body +:+ stop +:+ post))) eqn:E.
    + exfalso. injection F as F. apply (f_equal String.length) in F.
      simpl in F. rewrite !length_app_str in F. lia.
    + assert (occurrences stop (body +:+ stop) = 1%nat) as H1.
      { destruct (startswith stop (String x (body +:+ stop))) eqn:E'; [|done].
        exfalso. rewrite <- app_cons, <- app_assoc_str in E.
        rewrite startswith_app_fits in E.
        - rewrite app_cons in E. congruence.
        - rewrite length_app_str. lia. }
      by rewrite IH.
Qed.

Lemma slice_from_app_le n a b :
  (n <= String.length a)%nat -> slice_from n (a +:+ b) = slice_from n a +:+ b.
Proof.
  revert a. induction n as [|n IH]; intros a L; [reflexivity|].
  destruct a as [|x a]; [simpl in L; lia|].
  rewrite app_cons. simpl. apply IH. simpl in L. lia.
Qed.

Lemma after_unique pat pre post :
  occurrences pat (pre +:+ pat) = 1%nat ->
  after pat (pre +:+ pat +:+ post) = Some post.
Proof.
  intros H. unfold after. rewrite find_from_unique by done.
  simpl. by rewrite slice_from_app.
Qed.

(** ** What [str] prints *)

Lemma digits_uint d : made_of digit_chars (NilEmpty.string_of_uint d) = true.
Proof. induction d; simpl; try done. Qed.

Lemma digits_nilzero d : made_of digit_chars (NilZero.string_of_uint d) = true.
Proof. destruct d; try reflexivity; apply (digits_uint (_ _)). Qed.

Lemma made_of_weaken chars chars' v :
  (forall x, occurs x chars = true -> occurs x chars' = true) ->
  made_of chars v = true -> made_of chars' v = true.
Proof.
  intros Hsub. induction v as [|x v IH]; [done|].
  change (made_of ?cs (String x v)) with (occurs x cs && made_of cs v).
  intros [Hx Hv]%andb_true_iff. by rewrite (Hsub _ Hx), IH.
Qed.

Lemma str_numeric z : made_of numeric_chars (str z) = true.
Proof.
  unfold str, NilZero.string_of_int.
  assert (forall d, made_of numeric_chars (NilZero.string_of_uint d) = true) as H.
  { intros d. apply (made_of_weaken digit_chars); [|apply digits_nilzero].
    intros x Hx.
    change (occurs x numeric_chars) with (Ascii.eqb x "-" || occurs x digit_chars).
    rewrite Hx. apply orb_true_r. }
  destruct (Z.to_int z) as [d|d]; [apply H|].
  change (made_of ?cs (String "-" ?s)) with (made_of cs s). apply H.
Qed.


Lemma str_nonempty z : str z <> "".
Proof.
  unfold str, NilZero.string_of_int, NilZero.string_of_uint.
  by destruct (Z.to_int z) as [d|d]; destruct d.
Qed.

(** A pattern that has none of the characters [chars] keeps apart from
    every text made of them. *)
Lemma occurs_apart pat chars x :
  apart pat chars = true -> occurs x chars = true -> occurs x pat = false.
Proof.
  induction chars as [|y chars IH]; [done|].
  rewrite apart_cons, occurs_cons.
  intros [Hy Hp]%andb_true_iff [Hx|Hx]%orb_true_iff.
  - apply Ascii.eqb_eq in Hx as ->. by apply negb_true_iff.
  - by apply IH.
Qed.

Lemma apart_made_of pat chars v :
  apart pat chars = true -> made_of chars v = true -> apart pat v = true.
Proof.
  intros Hp. induction v as [|x v IH]; [done|].
  change (made_of chars (String x v)) with (occurs x chars && made_of chars v).
  intros [Hx Hv]%andb_true_iff.
  by rewrite apart_cons, (occurs_apart _ _ _ Hp Hx), IH.
Qed.

Lemma occurrences_str pat a z b :
  pat <> "" -> apart pat numeric_chars = true ->
  occurrences pat (a +:+ str z +:+ b) = (occurrences pat a + occurrences pat b)%nat.
Proof.
  intros Hp H. apply occurrences_hole; [done| |apply str_nonempty].
  apply (apart_made_of _ numeric_chars); [done|apply str_numeric].
Qed.

End ScanFacts.

(** ** Texts with numbers in them *)

Section RenderFacts.

Implicit Types (t : list piece) (acc pat : string).

Lemma occurrences_segments pat acc t :
  pat <> "" -> apart pat numeric_chars = true ->
  occurrences pat (acc +:+ render t)
  = list_sum (occurrences pat <$> segments acc t).
Proof.
  intros Hp H. revert acc. induction t as [|[s|z] t IH]; intros acc.
  - simpl. rewrite app_empty_r. lia.
  - simpl. rewrite <- app_assoc_str. apply IH.
  - simpl. rewrite occurrences_str by done. f_equal. apply (IH "").
Qed.

Lemma occurrences_render pat t :
  pat <> "" -> apart pat numeric_chars = true ->
  occurrences pat (render t) = list_sum (occurrences pat <$> segments "" t).
Proof. intros. by apply (occurrences_segments pat ""). Qed.

End RenderFacts.

(** Reading a right-nested concatenation as a list of pieces. *)
Ltac pieces_of e :=
  lazymatch e with
  | str ?z +:+ ?r => let t := pieces_of r in constr:(Num z :: t)
  | ?s +:+ ?r => let t := pieces_of r in constr:(Lit s :: t)
  | str ?z => constr:([Num z])
  | ?s => constr:([Lit s])
  end.

(** Counts the occurrences of a closed pattern without sign or digits in a
    concatenation of closed strings and printed numbers. *)
Ltac count_occurrences :=
  rewrite ?app_assoc_str;
  lazymatch goal with
  | |- occurrences ?pat ?e = _ =>
      let t := pieces_of e in
      replace e with (render t)
        by (cbn [render]; rewrite ?app_empty_r; reflexivity);
      rewrite occurrences_render by (done || reflexivity);
      vm_compute; reflexivity
  end.

Section ReaderFacts.

Implicit Types (name key pre attrs post v body : string).

Lemma start_tag_at name pre attrs post :
  occurrences (opening name) (pre +:+ opening name) = 1%nat ->
  occurrences ">" (" " +:+ attrs +:+ ">") = 1%nat ->
  start_tag name (pre +:+ opening name +:+ attrs +:+ ">" +:+ post)
  = Some (" " +:+ attrs).
Proof.
  intros H1 H2. unfold start_tag. rewrite find_from_unique by done.
  replace (slice_from (S (String.length name))
             (opening name +:+ attrs +:+ ">" +:+ post))
    with ((" " +:+ attrs) +:+ ">" +:+ post).
  - apply take_until_unique. by rewrite app_assoc_str.
  - unfold opening. rewrite !app_assoc_str.
    change ("<" +:+ name +:+ " " +:+ attrs +:+ ">" +:+ post)
      with (String "<" (name +:+ " " +:+ attrs +:+ ">" +:+ post)).
    simpl. by rewrite slice_from_app.
Qed.

Lemma attribute_at key pre v post :
  occurrences (" " +:+ key +:+ "=" +:+ dq) (pre +:+ " " +:+ key +:+ "=" +:+ dq) = 1%nat ->
  occurrences dq (v +:+ dq) = 1%nat ->
  attribute key (pre +:+ " " +:+ key +:+ "=" +:+ dq +:+ v +:+ dq +:+ post) = Some v.
Proof.
  intros H1 H2. unfold attribute.
  replace (pre +:+ " " +:+ key +:+ "=" +:+ dq +:+ v +:+ dq +:+ post)
    with (pre +:+ (" " +:+ key +:+ "=" +:+ dq) +:+ v +:+ dq +:+ post)
    by (by rewrite !app_assoc_str).
  rewrite after_unique by done. by apply take_until_unique.
Qed.

Lemma element_text_at name pre attrs body post :
  occurrences (opening name) (pre +:+ opening name) = 1%nat ->
  occurrences ">" (attrs +:+ ">") = 1%nat ->
  occurrences ("</" +:+ name +:+ ">") (body +:+ "</" +:+ name +:+ ">") = 1%nat ->
  element_text name
    (pre +:+ opening name +:+ attrs +:+ ">" +:+ body +:+ ("</" +:+ name +:+ ">") +:+ post)
  = Some body.
Proof.
  intros H1 H2 H3. unfold element_text.
  rewrite after_unique, after_unique by done.
  by apply take_until_unique.
Qed.

End ReaderFacts.

(** ** The document *)

Section DocumentFacts.

Local Open Scope Z_scope.

Lemma svg_content_outline w h : svg_content w h = outline w h.
Proof.
  unfold svg_content, outline, upto_text, upto_line, upto_marker, upto_rect,
    upto_gradient, svg_attrs, rect_attrs, text_attrs, opening, q.
  rewrite !app_assoc_str. reflexivity.
Qed.

Ltac unfold_outline :=
  unfold outline, upto_text, upto_line, upto_marker, upto_rect, upto_gradient,
    svg_attrs, rect_attrs, text_attrs.

Ltac count_in_outline := unfold_outline; count_occurrences.

Lemma svg_count w h : occurrences (opening "svg") (svg_content w h) = 1%nat.
Proof. rewrite svg_content_outline. count_in_outline. Qed.
Lemma gradient_count w h :
  occurrences (opening "linearGradient") (svg_content w h) = 1%nat.
Proof. rewrite svg_content_outline. count_in_outline. Qed.

Lemma marker_count w h : occurrences (opening "marker") (svg_content w h) = 1%nat.
Proof. rewrite svg_content_outline. count_in_outline. Qed.


Lemma text_count w h : occurrences (opening "text") (svg_content w h) = 1%nat.
Proof. rewrite svg_content_outline. count_in_outline. Qed.

Lemma svg_close_count w h : occurrences "</svg>" (svg_content w h) = 1%nat.
Proof. rewrite svg_content_outline. count_in_outline. Qed.

Lemma instruction_count w h : occurrences instruction (svg_content w h) = 1%nat.
Proof. rewrite svg_content_outline. count_in_outline. Qed.

Lemma svg_content_ends w h : endswith "</svg>" (svg_content w h) = true.
Proof.
  rewrite svg_content_outline. unfold outline.
  repeat (apply endswith_app_l). reflexivity.
Qed.

(** The start tags. *)

(** The outline, read from each of its tags on. *)
Lemma outline_from_line w h :
  outline w h
  = upto_line w h +:+ opening "line" +:+ line_attrs +:+ ">" +:+
    text_lead +:+ opening "text" +:+ text_attrs w +:+ ">" +:+
    text_body +:+ "</text>" +:+ epilog.
Proof. unfold outline, upto_text. by rewrite !app_assoc_str. Qed.

Lemma outline_from_marker w h :
  outline w h
  = upto_marker w h +:+ opening "marker" +:+ marker_attrs +:+ ">" +:+
    line_lead +:+ opening "line" +:+ line_attrs +:+ ">" +:+
    text_lead +:+ opening "text" +:+ text_attrs w +:+ ">" +:+
    text_body +:+ "</text>" +:+ epilog.
Proof. rewrite outline_from_line. unfold upto_line. by rewrite !app_assoc_str. Qed.

Lemma outline_from_rect w h :
  outline w h
  = upto_rect w h +:+ opening "rect" +:+ rect_attrs w h +:+ ">" +:+
    marker_lead +:+ opening "marker" +:+ marker_attrs +:+ ">" +:+
    line_lead +:+ opening "line" +:+ line_attrs +:+ ">" +:+
    text_lead +:+ opening "text" +:+ text_attrs w +:+ ">" +:+
    text_body +:+ "</text>" +:+ epilog.
Proof. rewrite outline_from_marker. unfold upto_marker. by rewrite !app_assoc_str. Qed.

Lemma outline_from_gradient w h :
  outline w h
  = upto_gradient w h +:+ opening "linearGradient" +:+ gradient_attrs +:+ ">" +:+
    rect_lead +:+ opening "rect" +:+ rect_attrs w h +:+ ">" +:+
    marker_lead +:+ opening "marker" +:+ marker_attrs +:+ ">" +:+
    line_lead +:+ opening "line" +:+ line_attrs +:+ ">" +:+
    text_lead +:+ opening "text" +:+ text_attrs w +:+ ">" +:+
    text_body +:+ "</text>" +:+ epilog.
Proof. rewrite outline_from_rect. unfold upto_rect. by rewrite !app_assoc_str. Qed.

Lemma outline_from_svg w h :
  outline w h
  = prolog +:+ opening "svg" +:+ svg_attrs w h +:+ ">" +:+
    gradient_lead +:+ opening "linearGradient" +:+ gradient_attrs +:+ ">" +:+
    rect_lead +:+ opening "rect" +:+ rect_attrs w h +:+ ">" +:+
    marker_lead +:+ opening "marker" +:+ marker_attrs +:+ ">" +:+
    line_lead +:+ opening "line" +:+ line_attrs +:+ ">" +:+
    text_lead +:+ opening "text" +:+ text_attrs w +:+ ">" +:+
    text_body +:+ "</text>" +:+ epilog.
Proof.
  rewrite outline_from_gradient. unfold upto_gradient. by rewrite !app_assoc_str.
Qed.

(** The start tags. *)

Lemma start_tag_svg w h :
  start_tag "svg" (svg_content w h) = Some (" " +:+ svg_attrs w h).
Proof.
  rewrite svg_content_outline, outline_from_svg.
  apply start_tag_at; [reflexivity|]. count_in_outline.
Qed.





Lemma element_text_text w h :
  element_text "text" (svg_content w h) = Some text_body.
Proof.
  rewrite svg_content_outline. unfold outline.
  apply (element_text_at "text");
    [count_in_outline|count_in_outline|reflexivity].
Qed.

(** The attributes that carry the numbers. *)

Ltac read_attribute pre post :=
  lazymatch goal with
  | |- attribute ?key ?tag = Some ?v =>
      replace tag with (pre +:+ " " +:+ key +:+ "=" +:+ dq +:+ v +:+ dq +:+ post)
        by (rewrite ?app_assoc_str; reflexivity);
      apply attribute_at; count_occurrences
  end.

Lemma svg_width w h : attribute "width" (" " +:+ svg_attrs w h) = Some (str w).
Proof.
  unfold svg_attrs.
  read_attribute "" (" height=" +:+ dq +:+ str h +:+ dq +:+
                     " xmlns=" +:+ q "http://www.w3.org/2000/svg").
Qed.

Lemma svg_height w h : attribute "height" (" " +:+ svg_attrs w h) = Some (str h).
Proof.
  unfold svg_attrs.
  read_attribute (" width=" +:+ dq +:+ str w +:+ dq)
                 (" xmlns=" +:+ q "http://www.w3.org/2000/svg").
Qed.




(** The background rectangle. *)






End DocumentFacts.

(** ** The document as XML *)

Section XmlFacts.

Local Open Scope Z_scope.

Lemma run_app a b st :
  run (a +:+ b) st
  = match run a st with
    | Some st' => run b st'
    | None => None
    end.
Proof.
  revert st. induction a as [|c a IH]; intros st; [done|].
  rewrite app_cons. cbn [run]. destruct (step st c); [apply IH|done].
Qed.

(** A sign or a digit is at home in an attribute value. *)
Lemma numeric_in_value c :
  occurs c numeric_chars = true -> occurs c dq = false /\ value_char c = true.
Proof.
  unfold numeric_chars. rewrite !occurs_cons. change (occurs c "") with false.
  intros H. repeat (apply orb_true_iff in H as [H|H]); try discriminate;
    apply Ascii.eqb_eq in H as ->; by vm_compute.
Qed.

Lemma run_number v name attrs key value open root :
  made_of numeric_chars v = true ->
  run v (State (Value name attrs key value) open root)
  = Some (State (Value name attrs key (value +:+ v)) open root).
Proof.
  revert value. induction v as [|c v IH]; intros value H.
  - by rewrite app_empty_r.
  - cbn [made_of] in H. apply andb_true_iff in H as [Hc Hv].
    destruct (numeric_in_value _ Hc) as [Hq Hval].
    cbn [run step]. rewrite Hq, Hval. rewrite IH by done.
    unfold snoc. by rewrite app_assoc_str.
Qed.

Lemma run_render hole t st st' :
  (forall z, made_of numeric_chars (hole z) = true) ->
  run_pieces hole t st = Some st' ->
  run (render_with hole t) st = Some st'.
Proof.
  intros Hh. revert st. induction t as [|[s|z] t IH]; intros st; [done|..];
    cbn [render_with run_pieces]; rewrite run_app.
  - destruct (run s st); [apply IH|done].
  - destruct st as [[] open root]; try done.
    rewrite run_number by done. apply IH.
Qed.

Lemma svg_content_parses w h :
  parse (svg_content w h) = Some (document (str w) (str h) (str (w / 2))).
Proof.
  unfold parse, svg_content, q. rewrite !app_assoc_str.
  generalize (w / 2). intros m.
  lazymatch goal with
  | |- context [run ?e ?st] =>
      let t := pieces_of e in
      replace e with (render_with str t)
        by (cbn [render_with]; rewrite ?app_empty_r; reflexivity);
      rewrite (run_render str t st
                 (State (Chars "") [] (Some (document (str w) (str h) (str m)))))
  end.
  - reflexivity.
  - apply str_numeric.
  - generalize str. intros hole. vm_compute. reflexivity.
Qed.

(** What the reader accepts and what it refuses. *)
Example parse_accepts :
  parse ("<a><b x=" +:+ q "1" +:+ "/>t<!-- c --></a>" +:+ nl)
  = Some (Element "a" [] [Element "b" [("x", "1")] []; Text "t"]).
Proof. vm_compute. reflexivity. Qed.

Example parse_refuses :
  parse "<a><b></a>" = None /\ parse "<a></a><b/>" = None /\
  parse "x<a/>" = None /\ parse "<a>" = None /\ parse "" = None /\
  parse "<a>&</a>" = None /\ parse "<a x=1/>" = None /\
  parse ("<a x=" +:+ q "1" +:+ " x=" +:+ q "2" +:+ "/>") = None /\
  parse ("<a x=" +:+ q "1" +:+ "y=" +:+ q "2" +:+ "/>") = None /\
  parse "<!-- a -- b --><a/>" = None.
Proof. split_and!; vm_compute; reflexivity. Qed.

End XmlFacts.

(* ===================================================================== *)
(** * The generated document (C5, C6, C7) *)
(* ===================================================================== *)

Section DocumentClaims.

Local Open Scope Z_scope.

Lemma tag_attribute_svg_width w h :
  tag_attribute "svg" "width" (svg_content w h) = Some (str w).
Proof. unfold tag_attribute. by rewrite start_tag_svg, svg_width. Qed.

Lemma tag_attribute_svg_height w h :
  tag_attribute "svg" "height" (svg_content w h) = Some (str h).
Proof. unfold tag_attribute. by rewrite start_tag_svg, svg_height. Qed.



Lemma svg_content_starts w h :
  startswith (prolog +:+ opening "svg") (svg_content w h) = true.
Proof.
  rewrite svg_content_outline, outline_from_svg.
  rewrite <- (app_assoc_str prolog). apply startswith_app.
Qed.

(** C5.  For every positive width and height the document is well-formed
    XML: the reader makes a tree of it.  Its root is the one [svg] element
    of the tree and carries the requested width and height.  The tree has
    one linear gradient and one marker (the arrowhead), each in a [defs]
    element of its own, one line (dashed) and one text element, whose text
    is the instruction between white space. *)
Theorem svg_document_elements (width height : Z) :
  0 < width -> 0 < height ->
  exists root gradient marker line text,
    parse (svg_content width height) = Some root /\
    (iter "svg" root = [root] /\
     attr "width" root = Some (str width) /\
     attr "height" root = Some (str height)) /\
    (iter "linearGradient" root = [gradient] /\
     attr "id" gradient = Some "bg") /\
    (iter "marker" root = [marker] /\
     attr "id" marker = Some "arrowhead") /\
    iter "defs" root = [Element "defs" [] [gradient]; Element "defs" [] [marker]] /\
    (iter "line" root = [line] /\
     attr "stroke-dasharray" line = Some "10,5") /\
    (iter "text" root = [text] /\
     text_of text = nl +:+ "    " +:+ instruction +:+ nl +:+ "  ").
Proof.
  intros _ _. rewrite svg_content_parses.
  eexists _, _, _, _, _. split; [reflexivity|]. split_and!; reflexivity.
Qed.

Lemma svg_document_elements_witness :
  exists root,
    parse (svg_content 600 400) = Some root /\
    iter "svg" root = [root] /\
    attr "width" root = Some "600" /\
    attr "height" root = Some "400" /\
    length (iter "text" root) = 1%nat.
Proof.
  destruct (svg_document_elements 600 400 eq_refl eq_refl)
    as (root & g & m & l & t & Hp & (H1 & H2 & H3) & _ & _ & _ & _ & H4 & _).
  exists root. split_and!; [exact Hp|exact H1|exact H2|exact H3|].
  rewrite H4. reflexivity.
Defined.






End DocumentClaims.

(* ===================================================================== *)
(** * Facts about the operating system calls *)
(* ===================================================================== *)

Section OsFacts.

Implicit Types (f : gmap string node) (o : list string) (p q src dst : string)
  (n : node) (W : world).

Lemma stat_empty_path f : stat f "" = None.
Proof. reflexivity. Qed.

Lemma stat_lookup f p : p <> "" -> stat f p = f !! p.
Proof. intros H. unfold stat. by case_decide. Qed.

Lemma stat_some_nonempty f p : is_Some (stat f p) -> p <> "".
Proof. intros [n H] ->. discriminate. Qed.

Lemma stat_insert f p n : p <> "" -> stat (<[p := n]> f) p = Some n.
Proof. intros H. by rewrite stat_lookup, lookup_insert_eq. Qed.

Lemma stat_insert_ne f p q n : p <> q -> stat (<[p := n]> f) q = stat f q.
Proof. intros H. unfold stat. case_decide; [done|]. by rewrite lookup_insert_ne. Qed.

Lemma stat_delete f p : stat (delete p f) p = None.
Proof. unfold stat. case_decide; [done|]. by rewrite lookup_delete_eq. Qed.

Lemma stat_delete_ne f p q : p <> q -> stat (delete p f) q = stat f q.
Proof. intros H. unfold stat. case_decide; [done|]. by rewrite lookup_delete_ne. Qed.

Lemma open_error_nonempty f p : open_error f p = None -> p <> "".
Proof. unfold open_error. by case_decide. Qed.

Lemma file_target_nonempty f p : file_target_error f p = None -> p <> "".
Proof. unfold file_target_error. by case_decide. Qed.

Lemma dir_target_nonempty f src p : dir_target_error f src p = None -> p <> "".
Proof. unfold dir_target_error. by case_decide. Qed.

(** A regular file can be opened for writing again. *)
Lemma open_error_file f p :
  is_file f p -> endswith "/" p = false -> open_error f p = None.
Proof.
  intros [c H] E. unfold open_error, stat in *.
  case_decide; [done|]. by rewrite E, H.
Qed.

(** One step of a computation at a time. *)
Lemma bind_run {A B} (m : M A) (k : A -> M B) W :
  bind m k W
  = match m W with
    | (Done a, W') => k a W'
    | (Raise e, W') => (Raise e, W')
    end.
Proof. reflexivity. Qed.

Lemma try_except_run {A} (body handler : M A) W :
  try_except body handler W
  = match body W with
    | (Done a, W') => (Done a, W')
    | (Raise _, W') => handler W'
    end.
Proof. reflexivity. Qed.

Lemma ret_run {A} (a : A) W : ret a W = (Done a, W).
Proof. reflexivity. Qed.

Lemma path_exists_run p W :
  path_exists p W = (Done (bool_decide (is_Some (stat (fs W) p))), W).
Proof. reflexivity. Qed.

Lemma write_file_run p c f o :
  write_file p c (World f o)
  = match open_error f p with
    | Some e => (Raise e, World f o)
    | None => (Done tt, World (<[p := File c]> f) o)
    end.
Proof. reflexivity. Qed.

(** The way to a path passes the way to each of its prefixes. *)
Lemma walk_from_app f seen a b :
  walk_from f seen (a +:+ b)
  = match walk_from f seen a with
    | Some e => Some e
    | None => walk_from f (seen +:+ a) b
    end.
Proof.
  revert seen. induction a as [|c a IH]; intros seen.
  - by rewrite app_empty_r.
  - rewrite app_cons. cbn [walk_from]. rewrite !IH.
    replace ((seen +:+ String c "") +:+ a) with (seen +:+ String c a)
      by (by rewrite app_assoc_str).
    destruct (Ascii.eqb c sep && negb (String.eqb seen "") && negb (endswith "/" seen));
      [|done].
    by destruct (f !! seen) as [[?|]|].
Qed.

Lemma rstrip_sep_prefix p : exists t, p = rstrip_sep p +:+ t.
Proof.
  induction p as [|c p [t IH]]; [by exists ""|].
  cbn [rstrip_sep]. destruct (rstrip_sep p) as [|b r].
  - destruct (Ascii.eqb c sep); [by eexists|].
    exists t. by rewrite IH at 1.
  - exists t. rewrite IH at 1. by rewrite !app_cons.
Qed.

Lemma walk_error_rstrip f p e :
  walk_error f (rstrip_sep p) = Some e -> walk_error f p = Some e.
Proof.
  intros H. destruct (rstrip_sep_prefix p) as [t Ht].
  unfold walk_error in *. rewrite Ht at 1. by rewrite walk_from_app, H.
Qed.

(** A lookup fails in one of two ways. *)
Lemma walk_from_cases f seen rest e :
  walk_from f seen rest = Some e ->
  e = FileNotFoundError \/ e = NotADirectoryError.
Proof.
  revert seen. induction rest as [|c rest IH]; intros seen; [done|].
  cbn [walk_from].
  destruct (Ascii.eqb c sep && negb (String.eqb seen "") && negb (endswith "/" seen));
    [|by apply IH].
  destruct (f !! seen) as [[?|]|]; [|by apply IH|]; intros [= <-]; auto.
Qed.

Lemma lookup_error_cases f p :
  lookup_error f p = FileNotFoundError \/ lookup_error f p = NotADirectoryError.
Proof.
  unfold lookup_error, walk_error.
  destruct (walk_from f "" p) as [e|] eqn:E; [|by left].
  by apply walk_from_cases in E.
Qed.

(** With one path on both sides, the error of a rename that finds no
    source is the error of the lookup. *)
Lemma missing_source_error_same f p :
  missing_source_error f p p = lookup_error f p.
Proof.
  unfold missing_source_error, lookup_error.
  case_decide as Hp; [by subst|].
  destruct (walk_error f (rstrip_sep p)) as [e|] eqn:E; [|done].
  by rewrite (walk_error_rstrip _ _ _ E).
Qed.

(** Renaming a path to itself checks that it is there and does nothing. *)
Lemma os_rename_same p f o :
  os_rename p p (World f o)
  = match stat f p with
    | Some _ => (Done tt, World f o)
    | None => (Raise (lookup_error f p), World f o)
    end.
Proof.
  unfold os_rename. simpl. destruct (stat f p).
  - by case_decide.
  - by rewrite missing_source_error_same.
Qed.

Lemma os_rename_file src dst c f o :
  stat f src = Some (File c) -> src <> dst ->
  os_rename src dst (World f o)
  = match file_target_error f dst with
    | Some e => (Raise e, World f o)
    | None => (Done tt, World (<[dst := File c]> (delete src f)) o)
    end.
Proof.
  intros H Hne. unfold os_rename. simpl. rewrite H. by case_decide.
Qed.

(** Whatever is renamed: the world stays as it is when the call raises;
    when it returns, the target is there, and so is everything that was
    there apart from the source and what lies below it. *)
Lemma os_rename_raise src dst W e W' :
  os_rename src dst W = (Raise e, W') -> W' = W.
Proof.
  unfold os_rename. destruct (stat (fs W) src) as [[c|]|]; [| |congruence];
    (case_decide; [congruence|]).
  - destruct (file_target_error (fs W) dst); congruence.
  - destruct (dir_target_error (fs W) src dst); congruence.
Qed.

Lemma os_rename_done src dst W u W' :
  os_rename src dst W = (Done u, W') ->
  stdout W' = stdout W /\
  is_Some (stat (fs W) src) /\
  (src <> dst -> is_Some (stat (fs W') dst)) /\
  (forall q, q <> src -> under src q = false ->
             is_Some (stat (fs W) q) -> is_Some (stat (fs W') q)).
Proof.
  unfold os_rename. destruct (stat (fs W) src) as [[c|]|] eqn:Hs; [| |congruence];
    (case_decide as Hd; [intros [= _ <-]; by rewrite ?Hd in *|]).
  - destruct (file_target_error (fs W) dst) eqn:Ht; [congruence|].
    intros [= _ <-]. simpl. split_and!; [done..| |].
    + intros _. rewrite stat_insert; [done|]. by eapply file_target_nonempty.
    + intros q Hq _ Hin. destruct (decide (dst = q)) as [<-|].
      * rewrite stat_insert; [done|]. by eapply file_target_nonempty.
      * by rewrite stat_insert_ne, stat_delete_ne.
  - destruct (dir_target_error (fs W) src dst) eqn:Ht; [congruence|].
    intros [= _ <-]. simpl. apply dir_target_nonempty in Ht.
    unfold move_tree. split_and!; [done..| |].
    + intros _. by rewrite stat_insert.
    + intros q Hq Hu Hin. destruct (decide (dst = q)) as [<-|].
      * by rewrite stat_insert.
      * rewrite stat_insert_ne by done.
        pose proof (stat_some_nonempty _ _ Hin) as Hne.
        rewrite stat_lookup in * by done.
        apply lookup_union_is_Some. right.
        rewrite lookup_delete_ne by done.
        destruct Hin as [v Hv]. exists v.
        apply map_lookup_filter_Some. split; [done|].
        unfold in_tree. simpl. intros [?|?]; congruence.
Qed.

Lemma os_remove_run p f o :
  os_remove p (World f o)
  = match stat f p with
    | None => (Raise (lookup_error f p), World f o)
    | Some Dir => (Raise IsADirectoryError, World f o)
    | Some (File _) => (Done tt, World (delete p f) o)
    end.
Proof. reflexivity. Qed.

Lemma os_remove_raise p W e W' : os_remove p W = (Raise e, W') -> W' = W.
Proof.
  unfold os_remove. destruct (stat (fs W) p) as [[c|]|]; congruence.
Qed.

Lemma os_remove_done p W u W' :
  os_remove p W = (Done u, W') ->
  W' = World (delete p (fs W)) (stdout W) /\ is_file (fs W) p.
Proof.
  unfold os_remove, is_file. destruct (stat (fs W) p) as [[c|]|]; [|congruence..].
  intros [= _ <-]. eauto.
Qed.

(** Nothing lies below a longer path. *)
Lemma under_longer d p :
  (String.length p <= String.length d)%nat -> under d p = false.
Proof.
  intros L. unfold under. destruct (startswith (d +:+ "/") p) eqn:E; [|done].
  apply startswith_length in E. rewrite length_app_str in E. simpl in E. lia.
Qed.

End OsFacts.

(* ===================================================================== *)
(** * How the script runs *)
(* ===================================================================== *)

Section ScriptFacts.

Variable which : string -> option program.

Implicit Types (f : gmap string node) (o : list string) (p : string)
  (w h : Z) (W : world).

Local Open Scope Z_scope.

Lemma create_background_run p w h f o :
  create_background which p w h (World f o)
  = match open_error f (svg_path p) with
    | Some e => (Raise e, World f o)
    | None =>
        convert_or_keep which p w h
          (World (<[svg_path p := File (svg_content w h)]> f) o)
    end.
Proof.
  unfold create_background, bind. rewrite write_file_run.
  by destruct (open_error f (svg_path p)).
Qed.

(** Lines 68-71: the rename has one path on both sides, so all it does is
    to check that the SVG is there. *)
Lemma fallback_run p f o :
  fallback p (World f o)
  = match stat f (svg_path p) with
    | Some _ => (Done false, World f (o ++ [fallback_notice]))
    | None => (Raise (lookup_error f (svg_path p)), World f o)
    end.
Proof.
  unfold fallback, bind. change (replace ".png" ".svg" p) with (svg_path p).
  rewrite os_rename_same. by destruct (stat f (svg_path p)).
Qed.

Lemma subprocess_run_qlmanage p w h f o :
  subprocess_run which (qlmanage_argv p w h) (World f o)
  = match which "qlmanage" with
    | None => (Raise FileNotFoundError, World f o)
    | Some prog =>
        let '(status, f') := prog (tail (qlmanage_argv p w h)) f in
        if status =? 0 then (Done tt, World f' o)
        else (Raise CalledProcessError, World f' o)
    end.
Proof. reflexivity. Qed.

(** The [try] with its bare [except] never raises. *)
Lemma guarded_conversion_returns p w h W :
  exists r W', try_except (conversion which p w h) (ret None) W = (Done r, W').
Proof.
  unfold try_except, ret.
  destruct (conversion which p w h W) as [[r|e] W']; eauto.
Qed.

(** The rasterizer does not deliver: the script falls back, on the files
    the rasterizer has left. *)
Lemma convert_or_keep_falls_back p w h f f' o :
  rasterizer_fails which p w h f f' ->
  convert_or_keep which p w h (World f o) = fallback p (World f' o).
Proof.
  intros Hf. unfold convert_or_keep, conversion.
  rewrite bind_run, try_except_run, bind_run, subprocess_run_qlmanage.
  destruct Hf as [[Hw ->]|(prog & status & Hw & Hp & Hs)]; rewrite Hw.
  - reflexivity.
  - rewrite Hp. destruct (status =? 0) eqn:E; [|reflexivity].
    destruct Hs as [Hs|Hs]; [apply Z.eqb_eq in E; done|].
    rewrite bind_run, path_exists_run. simpl. rewrite Hs.
    rewrite bool_decide_eq_false_2; [reflexivity|]. by intros [??].
Qed.

(** The rasterizer delivers, the requested path can take the picture and
    the SVG is still a file: the picture moves to the requested path and
    the SVG goes. *)
Lemma convert_or_keep_succeeds p w h prog f f2 png o :
  endswith ".png" p = true ->
  which "qlmanage" = Some prog ->
  prog (tail (qlmanage_argv p w h)) f = (0, f2) ->
  stat f2 (generated p) = Some (File png) ->
  file_target_error f2 p = None ->
  is_file f2 (svg_path p) ->
  convert_or_keep which p w h (World f o)
  = (Done true,
     World (delete (svg_path p) (<[p := File png]> (delete (generated p) f2))) o).
Proof.
  intros Hpng Hw Hp Hg Ht [c Hs].
  unfold convert_or_keep, conversion.
  rewrite bind_run, try_except_run, bind_run, subprocess_run_qlmanage, Hw, Hp.
  simpl. rewrite bind_run, path_exists_run. simpl. rewrite Hg.
  rewrite bool_decide_eq_true_2 by eauto.
  rewrite bind_run, (os_rename_file _ _ png) by (done || apply generated_ne_output).
  rewrite Ht, bind_run, os_remove_run.
  rewrite stat_insert_ne by (intros E; by apply (svg_path_ne_output p)).
  rewrite stat_delete_ne by apply generated_ne_svg_path.
  rewrite Hs. reflexivity.
Qed.

(** Every run of lines 53-71 is of one of three kinds: the thumbnail was
    renamed and the SVG removed; or the fallback ran on the files the
    rasterizer left; or the fallback ran after the rename, because the SVG
    could not be removed. *)
Lemma convert_or_keep_inv p w h f o r W' :
  convert_or_keep which p w h (World f o) = (r, W') ->
  let W2 := World (rasterized which p w h f) o in
  (exists W3, os_rename (generated p) p W2 = (Done tt, W3) /\
              os_remove (svg_path p) W3 = (Done tt, W') /\ r = Done true)
  \/ fallback p W2 = (r, W')
  \/ (exists W3 e, os_rename (generated p) p W2 = (Done tt, W3) /\
                   os_remove (svg_path p) W3 = (Raise e, W3) /\
                   fallback p W3 = (r, W')).
Proof.
  unfold convert_or_keep, conversion, rasterized.
  rewrite bind_run, try_except_run, bind_run, subprocess_run_qlmanage.
  destruct (which "qlmanage") as [prog|]; [|by auto].
  destruct (prog (tail (qlmanage_argv p w h)) f) as [status f2]. simpl.
  destruct (status =? 0); [|by auto].
  rewrite bind_run, path_exists_run. simpl.
  case_bool_decide; [|by auto].
  rewrite bind_run.
  destruct (os_rename (generated p) p (World f2 o)) as [[[]|e] W3] eqn:Hr.
  - rewrite bind_run.
    destruct (os_remove (svg_path p) W3) as [[[]|e] W4] eqn:Hd.
    + intros [= <- <-]. left. eauto.
    + pose proof (os_remove_raise _ _ _ _ Hd) as ->.
      intros H'. right. right. eauto.
  - pose proof (os_rename_raise _ _ _ _ _ Hr) as ->. auto.
Qed.

End ScriptFacts.

(* ===================================================================== *)
(** * Where the SVG is written (C8, C10) *)
(* ===================================================================== *)

Section PathClaims.

Local Open Scope Z_scope.

(** C8, as the code has it.  When [.png] occurs in the requested path only
    as its extension, the SVG is written beside the requested file: the
    same directory, the same base name, and [.svg] for [.png]. *)
Theorem svg_written_beside_output
    (which : string -> option program) (stem : string) (width height : Z)
    (f : gmap string node) (o : list string) :
  occurrences ".png" stem = 0%nat ->
  let output_path := stem +:+ ".png" in
  svg_path output_path = stem +:+ ".svg" /\
  dirname (svg_path output_path) = dirname output_path /\
  create_background which output_path width height (World f o)
  = match open_error f (stem +:+ ".svg") with
    | Some e => (Raise e, World f o)
    | None =>
        convert_or_keep which output_path width height
          (World (<[stem +:+ ".svg" := File (svg_content width height)]> f) o)
    end.
Proof.
  intros H output_path. subst output_path.
  rewrite create_background_run, svg_path_single by done.
  split_and!; [done| |done]. by rewrite !dirname_app.
Qed.

Lemma svg_written_beside_output_witness :
  svg_path "build/dmg_background.png" = "build/dmg_background.svg" /\
  dirname "build/dmg_background.svg" = "build".
Proof.
  destruct (svg_written_beside_output no_tools "build/dmg_background" 600 400 ∅ [] eq_refl)
    as (H1 & H2 & _).
  split; [exact H1|]. reflexivity.
Defined.

(** C8 as stated fails.  A path without [.png] is its own SVG path: the
    SVG is written over the requested file, with no [.svg] in its name.
    And a [.png] in a directory name is replaced too: the SVG is sent to
    another directory. *)
Lemma svg_not_always_beside_output :
  (svg_path "background" = "background" /\
   endswith ".svg" (svg_path "background") = false /\
   fs (create_background no_tools "background" 600 400 (World ∅ [])).2
   = {[ "background" := File (svg_content 600 400) ]}) /\
  (svg_path "shots.png/out.png" = "shots.svg/out.svg" /\
   dirname "shots.png/out.png" = "shots.png" /\
   dirname (svg_path "shots.png/out.png") = "shots.svg").
Proof. split_and!; vm_compute; reflexivity. Qed.

(** C10.  The rename of the fallback has the SVG path on both sides, the
    requested path with every [.png] replaced.  So it moves nothing: it
    returns, with the files as they were, exactly when something is at the
    SVG path, and raises the error of the failed lookup otherwise
    ([FileNotFoundError], or [NotADirectoryError] when a regular file
    stands where a directory of the path should be); the fallback then
    prints its notice and reports [False]. *)
Theorem fallback_rename_in_place
    (output_path : string) (f : gmap string node) (o : list string) :
  svg_path output_path = replace ".png" ".svg" output_path /\
  occurrences ".png" (replace ".png" ".svg" output_path) = 0%nat /\
  (forall r W',
      os_rename (svg_path output_path) (replace ".png" ".svg" output_path) (World f o)
      = (r, W') ->
      W' = World f o /\
      (r = Done tt <-> is_Some (stat f (svg_path output_path))) /\
      (r <> Done tt -> r = Raise (lookup_error f (svg_path output_path)))) /\
  fallback output_path (World f o)
  = match stat f (svg_path output_path) with
    | Some _ => (Done false, World f (o ++ [fallback_notice]))
    | None => (Raise (lookup_error f (svg_path output_path)), World f o)
    end.
Proof.
  split_and!; [reflexivity|apply svg_path_no_png| |apply fallback_run].
  intros r W'. change (replace ".png" ".svg" output_path) with (svg_path output_path).
  rewrite os_rename_same.
  destruct (stat f (svg_path output_path)) as [n|]; intros [= <- <-].
  - split_and!; [done| |done]. split; eauto.
  - split_and!; [done| |done]. split; [done|]. by intros [??].
Qed.

End PathClaims.

(* ===================================================================== *)
(** * What a call leaves behind (C1, C2, C3, C4) *)
(* ===================================================================== *)

Section RunClaims.

Local Open Scope Z_scope.

Variable which : string -> option program.

(** C1, as the code has it.  For every requested path ending in [.png]
    and positive width and height: if the SVG can be written, the
    rasterizer exits with status 0, the file named after the SVG with
    [.png] added is there afterwards, the requested path can take a file
    (it is no directory, and its directory exists) and the SVG is still a
    file, then [create_background] returns [True], the picture is at the
    requested path, and the SVG is gone. *)
Theorem png_on_success
    (prog : program) (output_path : string) (width height : Z)
    (f f2 : gmap string node) (png : string) (o : list string) :
  endswith ".png" output_path = true ->
  0 < width -> 0 < height ->
  open_error f (svg_path output_path) = None ->
  which "qlmanage" = Some prog ->
  prog (tail (qlmanage_argv output_path width height))
       (<[svg_path output_path := File (svg_content width height)]> f) = (0, f2) ->
  stat f2 (generated output_path) = Some (File png) ->
  file_target_error f2 output_path = None ->
  is_file f2 (svg_path output_path) ->
  exists f',
    create_background which output_path width height (World f o)
    = (Done true, World f' o) /\
    stat f' output_path = Some (File png) /\
    stat f' (svg_path output_path) = None.
Proof.
  intros Hpng _ _ Ho Hw Hp Hg Ht Hs.
  rewrite create_background_run, Ho.
  erewrite convert_or_keep_succeeds by done.
  eexists. split; [reflexivity|]. split.
  - rewrite stat_delete_ne by (by apply svg_path_ne_output).
    apply stat_insert. by eapply file_target_nonempty.
  - apply stat_delete.
Qed.

(** C2, as the code has it.  For every requested path ending in [.png]:
    if the SVG can be written, the rasterizer is not installed, exits
    with a non-zero status or leaves no file of the expected name, and the
    SVG document is still in its place afterwards, then
    [create_background] prints the notice and returns [False], and the
    document is at the SVG path, whose name ends in [.svg]. *)
Theorem svg_kept_on_failure
    (output_path : string) (width height : Z)
    (f f2 : gmap string node) (o : list string) :
  endswith ".png" output_path = true ->
  open_error f (svg_path output_path) = None ->
  rasterizer_fails which output_path width height
    (<[svg_path output_path := File (svg_content width height)]> f) f2 ->
  stat f2 (svg_path output_path) = Some (File (svg_content width height)) ->
  exists W',
    create_background which output_path width height (World f o) = (Done false, W') /\
    fs W' = f2 /\
    stdout W' = (o ++ [fallback_notice])%list /\
    stat (fs W') (svg_path output_path) = Some (File (svg_content width height)) /\
    endswith ".svg" (svg_path output_path) = true.
Proof.
  intros Hpng Ho Hf Hs.
  rewrite create_background_run, Ho.
  rewrite (convert_or_keep_falls_back _ _ _ _ _ _ _ Hf), fallback_run, Hs.
  eexists. split; [reflexivity|]. split_and!; try done. by apply svg_path_ends.
Qed.

(** When the rasterizer is not installed, nothing can have touched the
    SVG: it is enough that it could be written. *)
Lemma svg_kept_without_rasterizer
    (output_path : string) (width height : Z) (f : gmap string node) (o : list string) :
  which "qlmanage" = None ->
  open_error f (svg_path output_path) = None ->
  create_background which output_path width height (World f o)
  = (Done false,
     World (<[svg_path output_path := File (svg_content width height)]> f)
           (o ++ [fallback_notice])).
Proof.
  intros Hw Ho. rewrite create_background_run, Ho.
  rewrite (convert_or_keep_falls_back _ _ _ _ _
             (<[svg_path output_path := File (svg_content width height)]> f))
    by (by left).
  rewrite fallback_run, stat_insert; [done|]. by eapply open_error_nonempty.
Qed.

(** C3, as the code has it.  For sizes that Python prints: the [try]
    swallows whatever the subprocess call, the existence test, the rename
    and the removal raise.  Two file operations are outside it.  If the
    initial [open] raises, [create_background] raises that exception and
    nothing has been done.  Otherwise it returns a boolean, or it raises
    what the rename of the fallback raises; that rename raises when
    nothing is found at the SVG path any more. *)
Theorem exceptions_of_create_background
    (output_path : string) (width height : Z) (W : world) :
  prints width = true -> prints height = true ->
  (forall W1, exists r W',
      try_except (conversion which output_path width height) (ret None) W1
      = (Done r, W')) /\
  match open_error (fs W) (svg_path output_path) with
  | Some e => create_background which output_path width height W = (Raise e, W)
  | None =>
      exists W',
        (exists b, create_background which output_path width height W = (Done b, W'))
        \/ (exists e,
              create_background which output_path width height W = (Raise e, W') /\
              stat (fs W') (svg_path output_path) = None /\
              os_rename (svg_path output_path) (replace ".png" ".svg" output_path) W'
              = (Raise e, W'))
  end.
Proof.
  intros _ _. split; [apply guarded_conversion_returns|].
  destruct W as [f o]. rewrite create_background_run. simpl.
  destruct (open_error f (svg_path output_path)); [done|].
  destruct (convert_or_keep which output_path width height _) as [r W'] eqn:E.
  exists W'. apply convert_or_keep_inv in E.
  assert (forall W0, fallback output_path W0 = (r, W') ->
            (exists b, r = Done b) \/
            (exists e, r = Raise e /\ stat (fs W') (svg_path output_path) = None /\
                       os_rename (svg_path output_path)
                         (replace ".png" ".svg" output_path) W' = (Raise e, W')))
    as Hfb.
  { intros [f0 o0]. rewrite fallback_run.
    destruct (stat f0 (svg_path output_path)) eqn:Hs; intros [= <- <-]; [eauto|].
    right. eexists. split_and!; [done..|].
    change (replace ".png" ".svg" output_path) with (svg_path output_path).
    by rewrite os_rename_same, Hs. }
  destruct E as [(W3 & _ & _ & ->)|[E|(W3 & e & _ & _ & E)]]; [eauto|..];
    (destruct (Hfb _ E) as [[b ->]|(e' & -> & ?)]; [left|right]; eauto).
Qed.

(** C4, as the code has it.  For a requested path ending in [.png]: when
    [create_background] returns [True], something is at the requested path
    and nothing at the SVG path; when it returns [False], the SVG path is
    occupied (what an earlier run left at the requested path may lie
    beside it).  The SVG is removed only after the rename: if it was there
    when the rasterizer returned and is gone at the end, the call returned
    [True] and the requested path is occupied. *)
Theorem artifacts_at_exit
    (output_path : string) (width height : Z)
    (f : gmap string node) (o : list string) (r : outcome bool) (W' : world) :
  endswith ".png" output_path = true ->
  create_background which output_path width height (World f o) = (r, W') ->
  (r = Done true ->
     is_Some (stat (fs W') output_path) /\ stat (fs W') (svg_path output_path) = None) /\
  (r = Done false -> is_Some (stat (fs W') (svg_path output_path))) /\
  (open_error f (svg_path output_path) = None ->
   is_Some (stat (rasterized which output_path width height
                    (<[svg_path output_path := File (svg_content width height)]> f))
                 (svg_path output_path)) ->
   stat (fs W') (svg_path output_path) = None ->
   r = Done true /\ is_Some (stat (fs W') output_path)).
Proof.
  intros Hpng. rewrite create_background_run.
  destruct (open_error f (svg_path output_path)) as [e|] eqn:Ho.
  { intros [= <- <-]. split_and!; done. }
  intros E. apply convert_or_keep_inv in E. cbv zeta in E.
  set (f2 := rasterized which output_path width height _) in *.
  assert (forall W0, fallback output_path W0 = (r, W') ->
            r <> Done true /\ fs W' = fs W0 /\
            (is_Some (stat (fs W0) (svg_path output_path)) -> r = Done false) /\
            (r = Done false -> is_Some (stat (fs W0) (svg_path output_path))))
    as Hfb.
  { intros [f0 o0]. rewrite fallback_run. simpl.
    destruct (stat f0 (svg_path output_path)) eqn:Hs; intros [= <- <-];
      split_and!; try done; eauto; by intros [??]. }
  destruct E as [(W3 & Hr & Hd & ->)|[E|(W3 & e & Hr & Hd & E)]].
  - apply os_rename_done in Hr as (_ & _ & Hdst & _).
    apply os_remove_done in Hd as [-> _]. simpl.
    assert (is_Some (stat (delete (svg_path output_path) (fs W3)) output_path)
            /\ stat (delete (svg_path output_path) (fs W3)) (svg_path output_path) = None)
      as [? ?].
    { rewrite stat_delete, stat_delete_ne by (by apply svg_path_ne_output).
      split; [|done]. apply Hdst, generated_ne_output. }
    split_and!; done.
  - destruct (Hfb _ E) as (Hne & Hfs & Hk & Hk'). simpl in *.
    split_and!; [done|by rewrite Hfs; auto|].
    intros _ Hin Hnone. rewrite Hfs in Hnone. apply Hk in Hin as ->.
    rewrite Hnone in Hk'. by destruct Hk'.
  - destruct (Hfb _ E) as (Hne & Hfs & Hk & Hk'). simpl in *.
    split_and!; [done|by rewrite Hfs; auto|].
    intros _ Hin Hnone. rewrite Hfs in Hnone.
    apply os_rename_done in Hr as (_ & _ & _ & Hkeep). simpl in Hkeep.
    apply Hkeep in Hin.
    + rewrite Hnone in Hin. by destruct Hin.
    + intros Heq. by apply (generated_ne_svg_path output_path).
    + apply under_longer. unfold generated. rewrite length_app_str. lia.
Qed.

End RunClaims.

(* ===================================================================== *)
(** * Calling twice (C9) *)
(* ===================================================================== *)

Section DirnameLength.

Implicit Types (p s : string).

Lemma head_of_prefix p : exists r, p = head_of p +:+ r.
Proof.
  induction p as [|c p [r IH]]; [by exists ""|].
  simpl. destruct (_ || _); [|by eexists].
  exists r. rewrite app_cons. by f_equal.
Qed.

Lemma head_of_full p : head_of p = p -> p = "" \/ endswith "/" p = true.
Proof.
  induction p as [|c p IH]; [by left|]. right. revert H.
  change (head_of (String c p))
    with (if Ascii.eqb c sep || has_sep p then String c (head_of p) else "").
  destruct (Ascii.eqb c sep || has_sep p) eqn:E; [|discriminate].
  intros [= H]. destruct (IH H) as [->|H'].
  - change (has_sep "") with false in E. rewrite orb_false_r in E.
    apply Ascii.eqb_eq in E as ->. reflexivity.
  - by apply endswith_cons.
Qed.

Lemma rstrip_sep_length s : (String.length (rstrip_sep s) <= String.length s)%nat.
Proof.
  induction s as [|c s IH]; [done|]. simpl.
  destruct (rstrip_sep s); [destruct (Ascii.eqb c sep)|]; simpl in *; lia.
Qed.

(** The directory of a file name is shorter than the name. *)
Lemma dirname_shorter p :
  p <> "" -> endswith "/" p = false ->
  (String.length (dirname p) < String.length p)%nat.
Proof.
  intros Hne Hs.
  assert (String.length (head_of p) < String.length p)%nat as Hlt.
  { destruct (head_of_prefix p) as [r Hr].
    destruct r as [|c r].
    - rewrite app_empty_r in Hr. symmetry in Hr.
      destruct (head_of_full _ Hr); congruence.
    - apply (f_equal String.length) in Hr. rewrite length_app_str in Hr.
      simpl in Hr. lia. }
  unfold dirname. destruct (_ && _); [|done].
  pose proof (rstrip_sep_length (head_of p)). lia.
Qed.

End DirnameLength.

Section TwiceFacts.

Local Open Scope Z_scope.

Variable which : string -> option program.

Implicit Types (f g : gmap string node) (o : list string) (p : string)
  (w h : Z) (W : world).

(** Whether an entry can be created depends on its directory only. *)
Lemma parent_error_ext f g p :
  f !! dirname p = g !! dirname p ->
  parent_error f p = None -> parent_error g p = None.
Proof.
  intros H. unfold parent_error. rewrite <- H.
  repeat case_decide; try done. destruct (all_sep _); [done|].
  by destruct (f !! dirname p) as [[?|]|].
Qed.

Lemma open_error_inv f p :
  open_error f p = None ->
  p <> "" /\ endswith "/" p = false /\ f !! p <> Some Dir /\
  (f !! p = None -> parent_error f p = None).
Proof.
  unfold open_error. case_decide; [done|].
  destruct (endswith "/" p); [done|].
  destruct (f !! p) as [[c|]|]; intros ?; split_and!; done.
Qed.

Lemma open_error_absent f p :
  p <> "" -> endswith "/" p = false -> f !! p = None ->
  open_error f p = parent_error f p.
Proof.
  intros Hne Hs Hl. unfold open_error. case_decide; [done|]. by rewrite Hs, Hl.
Qed.

Lemma file_target_error_inv f p :
  file_target_error f p = None ->
  p <> "" /\ endswith "/" p = false /\ f !! p <> Some Dir /\ parent_error f p = None.
Proof.
  unfold file_target_error. case_decide; [done|].
  destruct (endswith "/" p); [done|].
  destruct (f !! p) as [[c|]|]; intros ?; split_and!; done.
Qed.

Lemma file_target_error_file f p c :
  p <> "" -> endswith "/" p = false -> f !! p = Some (File c) ->
  file_target_error f p = parent_error f p.
Proof.
  intros Hne Hs Hl. unfold file_target_error. case_decide; [done|].
  by rewrite Hs, Hl.
Qed.

(** The files after a successful call, and what a second rasterization
    and a second rename make of them. *)
Lemma rendered_again f (svg p gen : string) (c png : string) :
  gen <> svg -> gen <> p -> svg <> p ->
  let f2 := <[gen := File png]> (<[svg := File c]> f) in
  let F := delete svg (<[p := File png]> (delete gen f2)) in
  <[gen := File png]> (<[svg := File c]> F) = <[p := File png]> f2.
Proof.
  intros ??? f2 F. subst f2 F. apply map_eq. intros k.
  destruct (decide (k = gen)), (decide (k = svg)), (decide (k = p));
    by simplify_map_eq.
Qed.

Lemma renamed_again f2 (svg p gen : string) (png : string) :
  gen <> svg -> gen <> p -> svg <> p ->
  delete svg (<[p := File png]> (delete gen (<[p := File png]> f2)))
  = delete svg (<[p := File png]> (delete gen f2)).
Proof.
  intros ???. apply map_eq. intros k.
  destruct (decide (k = gen)), (decide (k = svg)), (decide (k = p));
    by simplify_map_eq.
Qed.

(** The rasterizer delivers but the requested path cannot take a file:
    the script falls back. *)
Lemma convert_or_keep_rename_fails p w h prog f f2 png e o :
  which "qlmanage" = Some prog ->
  prog (tail (qlmanage_argv p w h)) f = (0, f2) ->
  stat f2 (generated p) = Some (File png) ->
  file_target_error f2 p = Some e ->
  convert_or_keep which p w h (World f o) = fallback p (World f2 o).
Proof.
  intros Hw Hp Hg Ht. unfold convert_or_keep, conversion.
  rewrite bind_run, try_except_run, bind_run, subprocess_run_qlmanage, Hw, Hp.
  simpl. rewrite bind_run, path_exists_run. simpl. rewrite Hg.
  rewrite bool_decide_eq_true_2 by eauto.
  rewrite bind_run, (os_rename_file _ _ png) by (done || apply generated_ne_output).
  by rewrite Ht.
Qed.

End TwiceFacts.

Section TwiceClaim.

Local Open Scope Z_scope.

Variable which : string -> option program.

(** C9, as the code has it.  Let the rasterizer do the same thing whenever
    it is asked (it is not installed, or it fails and leaves the files
    alone, or it writes the thumbnail and exits with status 0), let the
    requested path end in [.png] and the directory of the SVG exist.  Then
    a second call returns what the first call returned, or raises what it
    raised, and leaves the files exactly as the first call left them.
    After a call that returned [True], neither the SVG nor the
    thumbnail under its intermediate name is left. *)
Theorem second_call_changes_nothing
    (output_path : string) (width height : Z) (W W1 : world) (r1 : outcome bool) :
  endswith ".png" output_path = true ->
  steady which output_path width height ->
  parent_error (fs W) (svg_path output_path) = None ->
  create_background which output_path width height W = (r1, W1) ->
  exists W2,
    create_background which output_path width height W1 = (r1, W2) /\
    fs W2 = fs W1 /\
    (r1 = Done true ->
       stat (fs W1) (svg_path output_path) = None /\
       stat (fs W1) (generated output_path) = None).
Proof.
  intros Hpng Hsteady Hdir. destruct W as [f o]. simpl in Hdir.
  set (p := output_path) in *. set (svg := svg_path p) in *.
  set (c := svg_content width height).
  rewrite create_background_run. fold svg c.
  destruct (open_error f svg) as [e|] eqn:Ho.
  { intros [= <- <-]. exists (World f o).
    rewrite create_background_run. fold svg. rewrite Ho. by split_and!. }
  destruct (open_error_inv _ _ Ho) as (Hsvg & Hslash & _ & _).
  set (f1 := <[svg := File c]> f).
  assert (stat f1 svg = Some (File c)) as Hs1 by (by apply stat_insert).
  assert (forall o', create_background which p width height (World f1 o')
                     = convert_or_keep which p width height (World f1 o')) as Hagain.
  { intros o'. rewrite create_background_run. fold svg c.
    rewrite open_error_file; [|by exists c|done].
    unfold f1. by rewrite insert_insert_eq. }
  assert (rasterizer_fails which p width height f1 f1 ->
          convert_or_keep which p width height (World f1 o) = (r1, W1) ->
          exists W2, create_background which p width height W1 = (r1, W2) /\
                     fs W2 = fs W1 /\
                     (r1 = Done true -> stat (fs W1) svg = None /\
                                        stat (fs W1) (generated p) = None)) as Hkeep.
  { intros Hf. rewrite (convert_or_keep_falls_back _ _ _ _ _ _ _ Hf), fallback_run.
    fold svg. rewrite Hs1. intros [= <- <-].
    eexists. rewrite Hagain, (convert_or_keep_falls_back _ _ _ _ _ _ _ Hf), fallback_run.
    fold svg. rewrite Hs1. by split_and!. }
  destruct Hsteady as [Hw|prog status Hw Hst Hp|prog png Hw Hp].
  - apply Hkeep. by left.
  - apply Hkeep. right. exists prog, status. by split_and!; [|apply Hp|left].
  - set (gen := generated p) in *.
    set (f2 := <[gen := File png]> f1).
    assert (gen <> svg) as Hgs by apply generated_ne_svg_path.
    assert (gen <> p) as Hgp by apply generated_ne_output.
    assert (svg <> p) as Hsp by (by apply svg_path_ne_output).
    assert (gen <> "") as Hg by apply generated_nonempty.
    assert (stat f2 gen = Some (File png)) as Hg2 by (by apply stat_insert).
    assert (stat f2 svg = Some (File c)) as Hs2
      by (unfold f2; by rewrite stat_insert_ne).
    destruct (file_target_error f2 p) as [e|] eqn:Ht.
    + rewrite (convert_or_keep_rename_fails which p width height prog f1 f2 png e)
        by (done || apply Hp).
      rewrite fallback_run. fold svg. rewrite Hs2. intros [= <- <-].
      assert (forall o', create_background which p width height (World f2 o')
                = fallback p (World f2 o')) as Hsame.
      { intros o'. rewrite create_background_run. fold svg c.
        rewrite open_error_file; [|by exists c|done].
        rewrite insert_id by (by rewrite <- (stat_lookup f2 svg)).
        apply (convert_or_keep_rename_fails which p width height prog f2 f2 png e);
          try done.
        rewrite Hp. f_equal. unfold f2. fold gen. by rewrite insert_insert_eq. }
      eexists. rewrite Hsame, fallback_run. fold svg. rewrite Hs2. by split_and!.
    + rewrite (convert_or_keep_succeeds which p width height prog f1 f2 png)
        by (done || apply Hp || by exists c).
      fold svg gen. intros [= <- <-].
      set (F := delete svg (<[p := File png]> (delete gen f2))).
      destruct (file_target_error_inv _ _ Ht) as (Hp0 & Hpslash & _ & Hpdir).
      assert (forall k, k <> svg -> k <> p -> k <> gen -> F !! k = f !! k) as Hframe.
      { intros k ???. unfold F, f2, f1.
        by rewrite lookup_delete_ne, lookup_insert_ne, lookup_delete_ne,
          !lookup_insert_ne. }
      assert (String.length (dirname svg) < String.length svg)%nat as Hlen
        by (by apply dirname_shorter).
      assert (String.length svg = String.length p) as Hlsvg
        by apply svg_path_length.
      assert (String.length gen = String.length p + 4)%nat as Hlgen.
      { unfold gen, generated. fold svg. rewrite length_app_str. simpl. lia. }
      assert (open_error F svg = None) as HoF.
      { rewrite open_error_absent; [|done|done|by apply lookup_delete_eq].
        apply (parent_error_ext f); [|exact Hdir].
        symmetry. apply Hframe; intros E; rewrite E in Hlen; lia. }
      set (f2' := <[gen := File png]> (<[svg := File c]> F)).
      assert (f2' = <[p := File png]> f2) as Hf2'
        by (by apply rendered_again).
      assert (String.length (dirname p) < String.length p)%nat as Hlenp
        by (by apply dirname_shorter).
      assert (file_target_error f2' p = None) as Ht'.
      { rewrite Hf2'.
        rewrite (file_target_error_file _ _ png) by (done || apply lookup_insert_eq).
        apply (parent_error_ext f2); [|exact Hpdir].
        symmetry. apply lookup_insert_ne.
        intros E. rewrite <- E in Hlenp. lia. }
      exists (World F o). simpl.
      rewrite create_background_run. fold svg c. rewrite HoF.
      rewrite (convert_or_keep_succeeds which p width height prog
                 (<[svg := File c]> F) f2' png); try done.
      * fold svg gen. split_and!.
        -- do 2 f_equal. rewrite Hf2'. by apply renamed_again.
        -- done.
        -- intros _. unfold F. split; [apply stat_delete|].
           rewrite stat_delete_ne, stat_insert_ne by done. apply stat_delete.
      * unfold f2'. by apply stat_insert.
      * exists c. unfold f2'. rewrite stat_insert_ne by done. by apply stat_insert.
Qed.

End TwiceClaim.

(* ===================================================================== *)
(** * The script on sample machines *)
(* ===================================================================== *)

Section Samples.

Local Open Scope Z_scope.

(** The scenario of the specification: the rasterizer is there, the
    directory is empty. *)
Lemma png_on_success_witness :
  exists f',
    create_background (only_qlmanage (thumbnailer "PNG")) "out.png" 600 400 (World ∅ [])
    = (Done true, World f' []) /\
    stat f' "out.png" = Some (File "PNG") /\
    stat f' "out.svg" = None.
Proof.
  apply (png_on_success (only_qlmanage (thumbnailer "PNG")) (thumbnailer "PNG")
           "out.png" 600 400 ∅
           (<["out.svg.png" := File "PNG"]>
              (<["out.svg" := File (svg_content 600 400)]> ∅)) "PNG" []).
  - reflexivity.
  - reflexivity.
  - reflexivity.
  - reflexivity.
  - reflexivity.
  - reflexivity.
  - reflexivity.
  - reflexivity.
  - exists (svg_content 600 400). reflexivity.
Defined.

(** C1 as stated fails.  With a directory at the requested path the
    rasterizer succeeds and its file is there, but the rename raises, the
    [try] swallows it, and the call returns [False] with the SVG and the
    thumbnail left behind.  And with a rasterizer that consumes the SVG the
    removal raises, and then the rename of the fallback does. *)
Lemma png_on_success_needs_room :
  (let which := only_qlmanage (thumbnailer "PNG") in
   let f : gmap string node := {[ "out.png" := Dir ]} in
   let f1 := <[ "out.svg" := File (svg_content 600 400) ]> f in
   let f2 := <[ "out.svg.png" := File "PNG" ]> f1 in
   endswith ".png" "out.png" = true /\
   open_error f (svg_path "out.png") = None /\
   which "qlmanage" = Some (thumbnailer "PNG") /\
   thumbnailer "PNG" (tail (qlmanage_argv "out.png" 600 400)) f1 = (0, f2) /\
   stat f2 (generated "out.png") = Some (File "PNG") /\
   create_background which "out.png" 600 400 (World f [])
   = (Done false, World f2 [fallback_notice])) /\
  (let which := only_qlmanage (consuming_thumbnailer "PNG") in
   let f1 : gmap string node := {[ "out.svg" := File (svg_content 600 400) ]} in
   let f2 : gmap string node := {[ "out.svg.png" := File "PNG" ]} in
   consuming_thumbnailer "PNG" (tail (qlmanage_argv "out.png" 600 400)) f1 = (0, f2) /\
   stat f2 (generated "out.png") = Some (File "PNG") /\
   create_background which "out.png" 600 400 (World ∅ [])
   = (Raise FileNotFoundError, World {[ "out.png" := File "PNG" ]} [])).
Proof. split; split_and!; vm_compute; reflexivity. Qed.

(** The other scenario of the specification: no rasterizer. *)
Lemma svg_kept_on_failure_witness :
  exists W',
    create_background no_tools "out.png" 600 400 (World ∅ []) = (Done false, W') /\
    stat (fs W') "out.svg" = Some (File (svg_content 600 400)) /\
    stat (fs W') "out.png" = None /\
    stdout W' = [fallback_notice].
Proof.
  destruct (svg_kept_on_failure no_tools "out.png" 600 400 ∅
              (<["out.svg" := File (svg_content 600 400)]> ∅) [])
    as (W' & Hrun & Hfs & Hout & Hsvg & _).
  - reflexivity.
  - reflexivity.
  - left. split; reflexivity.
  - reflexivity.
  - exists W'. split_and!; [exact Hrun|exact Hsvg| |exact Hout].
    rewrite Hfs. reflexivity.
Defined.

(** C2 as stated fails.  Without a rasterizer and without the directory
    of the requested path the call raises at the first [open] and writes
    nothing.  And a rasterizer that removes the SVG before it fails makes
    the rename of the fallback raise. *)
Lemma svg_kept_on_failure_needs_the_svg :
  (endswith ".png" "missing/out.png" = true /\
   no_tools "qlmanage" = None /\
   create_background no_tools "missing/out.png" 600 400 (World ∅ [])
   = (Raise FileNotFoundError, World ∅ [])) /\
  (let which := only_qlmanage crashing_thumbnailer in
   let f1 : gmap string node := {[ "out.svg" := File (svg_content 600 400) ]} in
   endswith ".png" "out.png" = true /\
   which "qlmanage" = Some crashing_thumbnailer /\
   crashing_thumbnailer (tail (qlmanage_argv "out.png" 600 400)) f1 = (1, ∅) /\
   create_background which "out.png" 600 400 (World ∅ [])
   = (Raise FileNotFoundError, World ∅ [])).
Proof. split; split_and!; vm_compute; reflexivity. Qed.

Lemma exceptions_of_create_background_witness :
  (exists r W', try_except (conversion no_tools "out.png" 600 400) (ret None)
                  (World ∅ []) = (Done r, W')) /\
  create_background no_tools "missing/out.png" 600 400 (World ∅ [])
  = (Raise FileNotFoundError, World ∅ []).
Proof.
  split.
  - destruct (exceptions_of_create_background no_tools "out.png" 600 400 (World ∅ []))
      as [H _]; [reflexivity|reflexivity|].
    exact (H (World ∅ [])).
  - destruct (exceptions_of_create_background no_tools "missing/out.png" 600 400
                (World ∅ [])) as [_ H]; [reflexivity|reflexivity|].
    exact H.
Defined.

(** C3 as stated fails: the first [open] is outside the [try].  A missing
    directory or a directory at the SVG path makes it raise, whatever
    rasterizer is installed; and so does the rename of the fallback when
    the SVG has disappeared, or when its directory has become a regular
    file. *)
Lemma create_background_can_raise :
  (create_background (only_qlmanage (thumbnailer "PNG")) "missing/out.png" 600 400
     (World ∅ [])
   = (Raise FileNotFoundError, World ∅ [])) /\
  (create_background (only_qlmanage (thumbnailer "PNG")) "out.png" 600 400
     (World {[ "out.svg" := Dir ]} [])
   = (Raise IsADirectoryError, World {[ "out.svg" := Dir ]} [])) /\
  (create_background (only_qlmanage (consuming_thumbnailer "PNG")) "out.png" 600 400
     (World ∅ [])
   = (Raise FileNotFoundError, World {[ "out.png" := File "PNG" ]} [])) /\
  (create_background (only_qlmanage (replacing_thumbnailer "build")) "build/out.png"
     600 400 (World {[ "build" := Dir ]} [])
   = (Raise NotADirectoryError, World {[ "build" := File "" ]} [])).
Proof. split_and!; vm_compute; reflexivity. Qed.

Lemma artifacts_at_exit_witness :
  is_Some (stat ({[ "out.png" := File "PNG" ]} : gmap string node) "out.png") /\
  stat ({[ "out.png" := File "PNG" ]} : gmap string node) "out.svg" = None.
Proof.
  destruct (artifacts_at_exit (only_qlmanage (thumbnailer "PNG")) "out.png" 600 400
              ∅ [] (Done true) (World {[ "out.png" := File "PNG" ]} []))
    as (H & _ & _).
  - reflexivity.
  - vm_compute. reflexivity.
  - exact (H eq_refl).
Defined.

(** C4 as stated fails.  A picture left at the requested path by an
    earlier run stays there when the rasterizer is not available: at the
    end there are the old picture and the new SVG.  And with a directory at
    the requested path there are the SVG and the thumbnail under its
    intermediate name. *)
Lemma two_artifacts_at_exit :
  (let f : gmap string node := {[ "out.png" := File "old" ]} in
   let f' := <[ "out.svg" := File (svg_content 600 400) ]> f in
   create_background no_tools "out.png" 600 400 (World f [])
   = (Done false, World f' [fallback_notice]) /\
   stat f' "out.png" = Some (File "old") /\
   stat f' "out.svg" = Some (File (svg_content 600 400))) /\
  (let f : gmap string node := {[ "out.png" := Dir ]} in
   let f' := <[ "out.svg.png" := File "PNG" ]>
               (<[ "out.svg" := File (svg_content 600 400) ]> f) in
   create_background (only_qlmanage (thumbnailer "PNG")) "out.png" 600 400 (World f [])
   = (Done false, World f' [fallback_notice]) /\
   stat f' "out.svg" = Some (File (svg_content 600 400)) /\
   stat f' "out.svg.png" = Some (File "PNG")).
Proof. split; split_and!; vm_compute; reflexivity. Qed.

Lemma second_call_changes_nothing_witness :
  exists W2,
    create_background (only_qlmanage (thumbnailer "PNG")) "out.png" 600 400
      (World {[ "out.png" := File "PNG" ]} [])
    = (Done true, W2) /\
    fs W2 = {[ "out.png" := File "PNG" ]}.
Proof.
  destruct (second_call_changes_nothing (only_qlmanage (thumbnailer "PNG"))
              "out.png" 600 400 (World ∅ [])
              (World {[ "out.png" := File "PNG" ]} []) (Done true))
    as (W2 & Hrun & Hfs & _).
  - reflexivity.
  - apply (steady_rendering _ _ _ _ (thumbnailer "PNG") "PNG"); [reflexivity|].
    intros f. reflexivity.
  - reflexivity.
  - vm_compute. reflexivity.
  - exists W2. split; [exact Hrun|exact Hfs].
Defined.

(** C9 as stated fails.  Let a thumbnail of an interrupted run lie
    around, and let the rasterizer report success without writing
    anything.  The first call finds the old thumbnail, moves it to the
    requested path, removes the SVG and returns [True]; the second call
    finds no thumbnail, keeps the SVG and returns [False].  Two calls leave
    the SVG beside the picture, one call leaves the picture alone. *)
Lemma second_call_can_differ :
  let which := only_qlmanage idle_thumbnailer in
  let f : gmap string node := {[ "out.svg.png" := File "stale" ]} in
  let f1 : gmap string node := {[ "out.png" := File "stale" ]} in
  let f2 := <[ "out.svg" := File (svg_content 600 400) ]> f1 in
  create_background which "out.png" 600 400 (World f []) = (Done true, World f1 []) /\
  create_background which "out.png" 600 400 (World f1 [])
  = (Done false, World f2 [fallback_notice]) /\
  stat f1 "out.svg" = None /\
  stat f2 "out.svg" = Some (File (svg_content 600 400)).
Proof. split_and!; vm_compute; reflexivity. Qed.

End Samples.

(* ===================================================================== *)
(** * More about a call: what it prints, touches and needs *)
(* ===================================================================== *)

Section CallFacts.

Local Open Scope Z_scope.

Variable which : string -> option program.

Implicit Types (f : gmap string node) (o : list string) (p : string)
  (w h : Z) (W : world).

(** X1.  On a machine without [qlmanage] a call does one of two things,
    whatever the requested path: it raises what the first [open] raises
    and changes nothing, or it writes the document to the SVG path, prints
    the notice and returns [False]. *)
Theorem without_rasterizer
    (output_path : string) (width height : Z) (f : gmap string node) (o : list string) :
  which "qlmanage" = None ->
  create_background which output_path width height (World f o)
  = match open_error f (svg_path output_path) with
    | Some e => (Raise e, World f o)
    | None =>
        (Done false,
         World (<[svg_path output_path := File (svg_content width height)]> f)
               (o ++ [fallback_notice]))
    end.
Proof.
  intros Hw. rewrite create_background_run.
  destruct (open_error f (svg_path output_path)) eqn:Ho; [done|].
  rewrite (convert_or_keep_falls_back _ _ _ _ _
             (<[svg_path output_path := File (svg_content width height)]> f))
    by (by left).
  rewrite fallback_run, stat_insert; [done|]. by eapply open_error_nonempty.
Qed.

(** X2.  A call prints nothing but the notice of the fallback: after
    [False] the notice has been added to the output, after [True] and
    after an exception the output is as it was. *)
Theorem output_of_a_call
    (output_path : string) (width height : Z) (W W' : world) (r : outcome bool) :
  create_background which output_path width height W = (r, W') ->
  stdout W' = match r with
              | Done false => (stdout W ++ [fallback_notice])%list
              | _ => stdout W
              end.
Proof.
  destruct W as [f o]. rewrite create_background_run. simpl.
  destruct (open_error f (svg_path output_path)); [by intros [= <- <-]|].
  intros E. apply convert_or_keep_inv in E. cbv zeta in E.
  assert (forall W0, fallback output_path W0 = (r, W') ->
            stdout W' = match r with
                        | Done false => (stdout W0 ++ [fallback_notice])%list
                        | _ => stdout W0
                        end) as Hfb.
  { intros [f0 o0]. rewrite fallback_run.
    by destruct (stat f0 (svg_path output_path)); intros [= <- <-]. }
  destruct E as [(W3 & Hr & Hd & ->)|[E|(W3 & e & Hr & Hd & E)]].
  - apply os_rename_done in Hr as (Ho & _).
    apply os_remove_done in Hd as [-> _]. exact Ho.
  - exact (Hfb _ E).
  - apply os_rename_done in Hr as (Ho & _). rewrite (Hfb _ E), Ho. done.
Qed.

(** X3.  A call returns [True] only when the SVG could be written,
    [qlmanage] is installed and exited with status 0, and something was at
    the thumbnail's path afterwards. *)
Theorem success_needs_the_rasterizer
    (output_path : string) (width height : Z)
    (f : gmap string node) (o : list string) (W' : world) :
  create_background which output_path width height (World f o) = (Done true, W') ->
  open_error f (svg_path output_path) = None /\
  exists prog f2,
    which "qlmanage" = Some prog /\
    prog (tail (qlmanage_argv output_path width height))
         (<[svg_path output_path := File (svg_content width height)]> f) = (0, f2) /\
    is_Some (stat f2 (generated output_path)).
Proof.
  rewrite create_background_run.
  destruct (open_error f (svg_path output_path)); [done|].
  intros E. split; [done|]. revert E.
  assert (forall W0, fallback output_path W0 <> (Done true, W')) as Hfb.
  { intros [f0 o0]. rewrite fallback_run.
    by destruct (stat f0 (svg_path output_path)). }
  unfold convert_or_keep, conversion.
  rewrite bind_run, try_except_run, bind_run, subprocess_run_qlmanage.
  destruct (which "qlmanage") as [prog|]; [|by intros ?%Hfb].
  destruct (prog _ _) as [status f2] eqn:Hp.
  destruct (status =? 0) eqn:Hs; [|by intros ?%Hfb].
  apply Z.eqb_eq in Hs as ->.
  rewrite bind_run, path_exists_run. simpl.
  case_bool_decide as Hg; [|by intros ?%Hfb].
  intros _. by exists prog, f2.
Qed.

End CallFacts.

Section CallFrame.

Local Open Scope Z_scope.

Variable which : string -> option program.

(** X4.  A call itself touches three paths only.  If the first [open]
    fails, the files stay as they are.  Otherwise, whatever happens next,
    every path other than the SVG path, the thumbnail's path and the
    requested path holds at the end what the rasterizer left there
    (provided the thumbnail's path is not a directory). *)
Theorem paths_a_call_touches
    (output_path : string) (width height : Z)
    (f : gmap string node) (o : list string) (r : outcome bool) (W' : world) :
  create_background which output_path width height (World f o) = (r, W') ->
  match open_error f (svg_path output_path) with
  | Some _ => fs W' = f
  | None =>
      let f2 := rasterized which output_path width height
                  (<[svg_path output_path := File (svg_content width height)]> f) in
      stat f2 (generated output_path) <> Some Dir ->
      forall q, q <> svg_path output_path -> q <> generated output_path ->
                q <> output_path ->
                stat (fs W') q = stat f2 q
  end.
Proof.
  rewrite create_background_run.
  destruct (open_error f (svg_path output_path)); [by intros [= <- <-]|].
  intros E f2 Hdir q Hqs Hqg Hqp. apply convert_or_keep_inv in E.
  cbv zeta in E. fold f2 in E.
  assert (forall W0, fallback output_path W0 = (r, W') -> fs W' = fs W0) as Hfb.
  { intros [f0 o0]. rewrite fallback_run.
    by destruct (stat f0 (svg_path output_path)); intros [= <- <-]. }
  assert (forall W3, os_rename (generated output_path) output_path (World f2 o)
                     = (Done tt, W3) -> stat (fs W3) q = stat f2 q) as Hmv.
  { intros W3 Hr. pose proof (os_rename_done _ _ _ _ _ Hr) as (_ & [n Hn] & _).
    simpl in Hn. destruct n as [c|]; [|done].
    rewrite (os_rename_file _ _ c) in Hr by (done || apply generated_ne_output).
    destruct (file_target_error f2 output_path); [done|].
    injection Hr as <-. simpl.
    by rewrite stat_insert_ne, stat_delete_ne. }
  destruct E as [(W3 & Hr & Hd & _)|[E|(W3 & e & Hr & _ & E)]].
  - apply os_remove_done in Hd as [-> _]. simpl.
    rewrite stat_delete_ne by done. by apply Hmv.
  - by rewrite (Hfb _ E).
  - rewrite (Hfb _ E). by apply Hmv.
Qed.

(** X5.  A requested path without [.png] is its own SVG path, and then a
    successful conversion ends with nothing: the picture is renamed onto
    the SVG and removed in its place.  The call returns [True]; neither
    the requested path nor the thumbnail's path holds anything. *)
Theorem success_without_png_extension
    (prog : program) (output_path : string) (width height : Z)
    (f f2 : gmap string node) (png : string) (o : list string) :
  occurrences ".png" output_path = 0%nat ->
  open_error f output_path = None ->
  which "qlmanage" = Some prog ->
  prog (tail (qlmanage_argv output_path width height))
       (<[output_path := File (svg_content width height)]> f) = (0, f2) ->
  stat f2 (output_path +:+ ".png") = Some (File png) ->
  file_target_error f2 output_path = None ->
  exists f',
    create_background which output_path width height (World f o)
    = (Done true, World f' o) /\
    stat f' output_path = None /\
    stat f' (output_path +:+ ".png") = None.
Proof.
  intros Hfix Ho Hw Hp Hg Ht.
  pose proof (svg_path_fixed _ Hfix) as Hsvg.
  assert (generated output_path = output_path +:+ ".png") as Hgen
    by (unfold generated; by rewrite Hsvg).
  pose proof (generated_ne_output output_path) as Hne. rewrite Hgen in Hne.
  pose proof (file_target_nonempty _ _ Ht) as Hp0.
  rewrite create_background_run, Hsvg, Ho.
  unfold convert_or_keep, conversion.
  rewrite bind_run, try_except_run, bind_run, subprocess_run_qlmanage, Hw, Hp.
  simpl. rewrite bind_run, path_exists_run, Hgen. simpl. rewrite Hg.
  rewrite bool_decide_eq_true_2 by eauto.
  rewrite bind_run, (os_rename_file _ _ png), Ht by done.
  rewrite bind_run, os_remove_run, Hsvg, stat_insert by done.
  eexists. split; [reflexivity|]. split; [apply stat_delete|].
  rewrite stat_delete_ne, stat_insert_ne by done. apply stat_delete.
Qed.

End CallFrame.

(* ===================================================================== *)
(** * More about the paths *)
(* ===================================================================== *)

Section PathFacts.

Local Open Scope Z_scope.

(** X6.  The SVG path is as long as the requested path; it is the
    requested path itself exactly when [.png] does not occur in it; and
    replacing again changes nothing. *)
Theorem svg_path_shape (output_path : string) :
  String.length (svg_path output_path) = String.length output_path /\
  (svg_path output_path = output_path <-> occurrences ".png" output_path = 0%nat) /\
  svg_path (svg_path output_path) = svg_path output_path.
Proof.
  split_and!.
  - apply svg_path_length.
  - split; [|apply svg_path_fixed].
    intros E. rewrite <- E. apply svg_path_no_png.
  - apply svg_path_fixed, svg_path_no_png.
Qed.

(** X7.  When [.png] occurs in the requested path only as its extension,
    the command line fits the file the script then looks for: the
    rasterizer is asked for the larger of width and height, is sent to the
    directory in which the thumbnail is expected ([.] for the current
    one), and is given the SVG as its last argument. *)
Theorem command_line_fits_thumbnail (stem : string) (width height : Z) :
  occurrences ".png" stem = 0%nat ->
  let output_path := stem +:+ ".png" in
  exists size dir,
    qlmanage_argv output_path width height
    = ["qlmanage"; "-t"; "-s"; str size; "-o"; dir; stem +:+ ".svg"] /\
    width <= size /\ height <= size /\ (size = width \/ size = height) /\
    generated output_path = stem +:+ ".svg" +:+ ".png" /\
    dir = (if decide (dirname (generated output_path) = "") then "."
           else dirname (generated output_path)).
Proof.
  intros H output_path. subst output_path.
  exists (Z.max width height),
    (if decide (dirname (stem +:+ ".png") = "") then "."
     else dirname (stem +:+ ".png")).
  unfold qlmanage_argv, generated. rewrite svg_path_single by done.
  split_and!; [done|lia|lia|lia|by rewrite app_assoc_str|].
  by rewrite !dirname_app.
Qed.

End PathFacts.

(* ===================================================================== *)
(** * More about the document *)
(* ===================================================================== *)

Section DocumentExtras.

Local Open Scope Z_scope.





End DocumentExtras.

(* ===================================================================== *)
(** * The entry point *)
(* ===================================================================== *)

Section EntryFacts.

Local Open Scope Z_scope.

Variable which : string -> option program.




End EntryFacts.

(* ===================================================================== *)
(** * The further properties on sample machines *)
(* ===================================================================== *)

Section MoreSamples.

Local Open Scope Z_scope.

Lemma without_rasterizer_witness :
  create_background no_tools "background.jpg" 600 400 (World ∅ [])
  = (Done false,
     World {[ "background.jpg" := File (svg_content 600 400) ]} [fallback_notice]).
Proof.
  rewrite (without_rasterizer no_tools "background.jpg" 600 400 ∅ []).
  - reflexivity.
  - reflexivity.
Defined.

Lemma output_of_a_call_witness :
  stdout (World ({[ "out.svg" := File (svg_content 600 400) ]} : gmap string node)
                ["earlier line"; fallback_notice])
  = ["earlier line"; fallback_notice].
Proof.
  rewrite (output_of_a_call no_tools "out.png" 600 400
             (World ∅ ["earlier line"]) _ (Done false)).
  - reflexivity.
  - vm_compute. reflexivity.
Defined.

Lemma success_needs_the_rasterizer_witness :
  exists prog f2,
    only_qlmanage (thumbnailer "PNG") "qlmanage" = Some prog /\
    prog (tail (qlmanage_argv "out.png" 600 400))
         (<["out.svg" := File (svg_content 600 400)]> ∅) = (0, f2) /\
    is_Some (stat f2 "out.svg.png").
Proof.
  destruct (success_needs_the_rasterizer (only_qlmanage (thumbnailer "PNG"))
              "out.png" 600 400 ∅ [] (World {[ "out.png" := File "PNG" ]} []))
    as [_ H].
  - vm_compute. reflexivity.
  - exact H.
Defined.

Lemma paths_a_call_touches_witness :
  stat ({[ "notes.txt" := File "n"; "out.png" := File "PNG" ]} : gmap string node)
       "notes.txt"
  = Some (File "n").
Proof.
  pose proof (paths_a_call_touches (only_qlmanage (thumbnailer "PNG"))
                "out.png" 600 400 {[ "notes.txt" := File "n" ]} [] (Done true)
                (World {[ "notes.txt" := File "n"; "out.png" := File "PNG" ]} [])) as H.
  assert (open_error ({[ "notes.txt" := File "n" ]} : gmap string node)
            (svg_path "out.png") = None) as Ho by reflexivity.
  rewrite Ho in H. cbv zeta in H. simpl fs in H. rewrite H.
  - vm_compute. reflexivity.
  - vm_compute. reflexivity.
  - vm_compute. discriminate.
  - discriminate.
  - discriminate.
  - discriminate.
Defined.

Lemma success_without_png_extension_witness :
  exists f',
    create_background (only_qlmanage (thumbnailer "PNG")) "background" 600 400
      (World ∅ [])
    = (Done true, World f' []) /\
    stat f' "background" = None /\
    stat f' "background.png" = None.
Proof.
  apply (success_without_png_extension (only_qlmanage (thumbnailer "PNG"))
           (thumbnailer "PNG") "background" 600 400 ∅
           (<["background.png" := File "PNG"]>
              (<["background" := File (svg_content 600 400)]> ∅)) "PNG" []).
  - reflexivity.
  - reflexivity.
  - reflexivity.
  - reflexivity.
  - reflexivity.
  - reflexivity.
Defined.

Lemma command_line_fits_thumbnail_witness :
  exists size dir,
    qlmanage_argv "build/dmg_background.png" 600 400
    = ["qlmanage"; "-t"; "-s"; str size; "-o"; dir; "build/dmg_background.svg"] /\
    dir = "build".
Proof.
  destruct (command_line_fits_thumbnail "build/dmg_background" 600 400 eq_refl)
    as (size & dir & Hargv & _ & _ & _ & _ & Hdir).
  exists size, dir. split; [exact Hargv|]. rewrite Hdir. reflexivity.
Defined.


End MoreSamples.
